(** * remnawave-tg-shop: menu rendering and the crypto payment handler

    A shallow embedding of

      - [bot/utils/menu_renderer.py]:
          [update_menu_message], [render_menu_content];
      - [bot/handlers/user/subscription/payments_crypto.py]:
          [pay_crypto_callback_handler].

    Both functions are coroutines that talk to a chat surface and to a
    payment gateway.  They are embedded in a state-and-exception monad
    over an abstract [World]: every external operation is a function from
    the world to a result (a value or a raised exception) and a new
    world, and every call and every log record is appended to a trace. *)

From Stdlib Require Import ZArith List Bool String Ascii Lia.
From Stdlib Require Import Floats.SpecFloat.
From Stdlib Require DecimalString.
Import ListNotations.

Local Open Scope string_scope.
Local Open Scope Z_scope.

(** ** Python strings

    A Python [str] is held as the [string] of its UTF-8 bytes.  Splitting
    at ":" or "/" acts on bytes as it does on characters.  [lower] maps
    the ASCII capitals only: the capitals outside ASCII have no effect on
    the two containment tests made on lowered text, since none of them
    lowers to a run of ASCII letters of these needles. *)

Module PyStr.

Definition is_upper (c : ascii) : bool :=
  let n := nat_of_ascii c in (Nat.leb 65 n && Nat.leb n 90)%bool.

Definition lower_char (c : ascii) : ascii :=
  if is_upper c then ascii_of_nat (nat_of_ascii c + 32) else c.

(** [s.lower()] *)
Fixpoint lower (s : string) : string :=
  match s with
  | EmptyString => EmptyString
  | String c r => String (lower_char c) (lower r)
  end.

Fixpoint starts_with (p s : string) : bool :=
  match p, s with
  | EmptyString, _ => true
  | String a p', String b s' => (Ascii.eqb a b && starts_with p' s')%bool
  | String _ _, EmptyString => false
  end.

(** [p in s] *)
Fixpoint contains (p s : string) : bool :=
  (starts_with p s ||
   match s with
   | EmptyString => false
   | String _ s' => contains p s'
   end)%bool.

(** [s.split(sep)] for a one-character separator: never empty. *)
Fixpoint split (sep : ascii) (s : string) : list string :=
  match s with
  | EmptyString => [EmptyString]
  | String c r =>
      if Ascii.eqb c sep then EmptyString :: split sep r
      else match split sep r with
           | [] => [String c EmptyString]
           | h :: t => String c h :: t
           end
  end.

(** [s.split(sep, 1)]: one element when [sep] does not occur, two
    otherwise (cut at the first occurrence). *)
Fixpoint split1 (sep : ascii) (s : string) : list string :=
  match s with
  | EmptyString => [EmptyString]
  | String c r =>
      if Ascii.eqb c sep then [EmptyString; r]
      else match split1 sep r with
           | h :: t => String c h :: t
           | [] => [String c EmptyString]
           end
  end.

(** [str(n)] for an [int]. *)
Definition of_Z (n : Z) : string :=
  DecimalString.NilZero.string_of_int (Z.to_int n).

(** Truth value of a string: every string but the empty one. *)
Definition truthy (s : string) : bool :=
  match s with EmptyString => false | _ => true end.

End PyStr.

(** ** Python floats

    A [float] is an IEEE 754 binary64 value: [spec_float] at precision 53
    and maximal exponent 1024. *)

Module PyFloat.

Definition prec : Z := 53.
Definition emax : Z := 1024.

Definition t := spec_float.

(** The correctly rounded (nearest, ties to even) binary64 value of
    [m * 10 ^ e10].  For a negative exponent the quotient is taken with
    more than 64 bits and a sticky bit, which [binary_round] then rounds
    once. *)
Definition of_decimal (neg : bool) (m : positive) (e10 : Z) : t :=
  if 0 <=? e10 then
    match Zpos m * 10 ^ e10 with
    | Zpos p => binary_round prec emax neg p 0
    | _ => S754_zero neg
    end
  else
    let d := 10 ^ (- e10) in
    let k := Z.log2_up d + 64 in
    let n := Zpos m * 2 ^ k in
    let sticky := if n mod d =? 0 then 0 else 1 in
    match 2 * (n / d) + sticky with
    | Zpos p => binary_round prec emax neg p (- (k + 1))
    | _ => S754_zero neg
    end.

(** *** [float(s)] on a string *)

Definition is_digit (c : ascii) : bool :=
  let n := nat_of_ascii c in (Nat.leb 48 n && Nat.leb n 57)%bool.

Definition digit_val (c : ascii) : Z := Z.of_nat (nat_of_ascii c) - 48.

(** Blanks that [float] strips from an ASCII string: tab, line feed,
    vertical tab, form feed, carriage return and space. *)
Definition is_space (c : ascii) : bool :=
  let n := nat_of_ascii c in
  ((Nat.leb 9 n && Nat.leb n 13) || Nat.eqb n 32)%bool.

Fixpoint has_underscore (s : string) : bool :=
  match s with
  | EmptyString => false
  | String c r => (Ascii.eqb c "_" || has_underscore r)%bool
  end.

(** Removal of digit-grouping underscores: each one must stand between
    two digits.  [prev] is the previous character, if any. *)
Fixpoint drop_underscores (prev : option ascii) (s : string) : option string :=
  match s with
  | EmptyString =>
      match prev with
      | Some p => if Ascii.eqb p "_" then None else Some EmptyString
      | None => Some EmptyString
      end
  | String c r =>
      if Ascii.eqb c "_" then
        match prev with
        | Some p => if is_digit p then drop_underscores (Some c) r else None
        | None => None
        end
      else
        let bad :=
          match prev with
          | Some p => (Ascii.eqb p "_" && negb (is_digit c))%bool
          | None => false
          end in
        if bad then None
        else option_map (String c) (drop_underscores (Some c) r)
  end.

Fixpoint lstrip (s : string) : string :=
  match s with
  | String c r => if is_space c then lstrip r else s
  | EmptyString => EmptyString
  end.

(** Trailing blanks are removed, but never the first character. *)
Fixpoint rstrip_tail (s : string) : string :=
  match s with
  | EmptyString => EmptyString
  | String c r =>
      match rstrip_tail r with
      | EmptyString => if is_space c then EmptyString else String c EmptyString
      | r' => String c r'
      end
  end.

Definition rstrip (s : string) : string :=
  match s with
  | EmptyString => EmptyString
  | String c r => String c (rstrip_tail r)
  end.

(** The longest prefix of digits, as (value, number of digits, rest). *)
Fixpoint span_digits (acc : Z) (n : Z) (s : string) : Z * Z * string :=
  match s with
  | String c r =>
      if is_digit c then span_digits (10 * acc + digit_val c) (n + 1) r
      else (acc, n, s)
  | EmptyString => (acc, n, s)
  end.

Definition take_sign (s : string) : bool * string :=
  match s with
  | String "-" r => (true, r)
  | String "+" r => (false, r)
  | _ => (false, s)
  end.

(** The exponent part [e[+-]ddd]; when no digit follows, nothing is
    consumed. *)
Definition take_exponent (s : string) : Z * string :=
  match s with
  | String c r =>
      if (Ascii.eqb c "e" || Ascii.eqb c "E")%bool then
        let '(neg, r1) := take_sign r in
        let '(v, n, r2) := span_digits 0 0 r1 in
        if n =? 0 then (0, s) else ((if neg then - v else v), r2)
      else (0, s)
  | EmptyString => (0, s)
  end.

(** A decimal literal: sign, digits with an optional point, exponent.
    [None] when no digit is found or when characters are left over. *)
Definition parse_decimal (s : string) : option t :=
  let '(neg, r0) := take_sign s in
  let '(ip, ni, r1) := span_digits 0 0 r0 in
  let '(m, nf, r2) :=
    match r1 with
    | String "." r => let '(v, n, r') := span_digits ip 0 r in (v, n, r')
    | _ => (ip, 0, r1)
    end in
  if ni + nf =? 0 then None
  else
    let '(e, r3) := take_exponent r2 in
    match r3 with
    | EmptyString =>
        Some match m with
             | Zpos p => of_decimal neg p (e - nf)
             | _ => S754_zero neg
             end
    | _ => None
    end.

(** [inf], [infinity] and [nan], signed, in any letter case. *)
Definition parse_inf_or_nan (s : string) : option t :=
  let '(neg, r) := take_sign s in
  let w := PyStr.lower r in
  if (String.eqb w "inf" || String.eqb w "infinity")%bool
  then Some (S754_infinity neg)
  else if String.eqb w "nan" then Some S754_nan
  else None.

(** *** Characters outside ASCII

    A [str] is held as its UTF-8 bytes.  Before parsing, [float] replaces
    in a string that is not pure ASCII every blank by a space and every
    decimal digit of any script by its ASCII digit, and cuts the string
    at the first other character outside ASCII, which is left as "?". *)

Definition byte (c : ascii) : Z := Z.of_nat (nat_of_ascii c).

Definition is_continuation (c : ascii) : bool :=
  (128 <=? byte c) && (byte c <? 192).

(** The code points of a UTF-8 string; [None] closes the list at a byte
    sequence that encodes no character. *)
Fixpoint decode_utf8 (s : string) : list (option Z) :=
  match s with
  | EmptyString => []
  | String c0 r0 =>
      let b0 := byte c0 in
      if b0 <? 128 then Some b0 :: decode_utf8 r0
      else if (194 <=? b0) && (b0 <? 224) then
        match r0 with
        | String c1 r1 =>
            if is_continuation c1
            then Some ((b0 - 192) * 64 + (byte c1 - 128)) :: decode_utf8 r1
            else [None]
        | _ => [None]
        end
      else if (224 <=? b0) && (b0 <? 240) then
        match r0 with
        | String c1 (String c2 r2) =>
            let cp := (b0 - 224) * 4096 + (byte c1 - 128) * 64
                      + (byte c2 - 128) in
            if is_continuation c1 && is_continuation c2 && (2048 <=? cp)
            then Some cp :: decode_utf8 r2
            else [None]
        | _ => [None]
        end
      else if (240 <=? b0) && (b0 <? 245) then
        match r0 with
        | String c1 (String c2 (String c3 r3)) =>
            let cp := (b0 - 240) * 262144 + (byte c1 - 128) * 4096
                      + (byte c2 - 128) * 64 + (byte c3 - 128) in
            if is_continuation c1 && is_continuation c2
               && is_continuation c3 && (65536 <=? cp) && (cp <=? 1114111)
            then Some cp :: decode_utf8 r3
            else [None]
        | _ => [None]
        end
      else [None]
  end.

(** The blanks outside ASCII ([str.isspace]). *)
Definition is_unicode_space (ch : Z) : bool :=
  (ch =? 133) || (ch =? 160) || (ch =? 5760)
  || ((8192 <=? ch) && (ch <=? 8202))
  || (ch =? 8232) || (ch =? 8233) || (ch =? 8239) || (ch =? 8287)
  || (ch =? 12288).

(** The code points of the digit zero of every script with decimal digits
    (general category Nd of Unicode 14, the database of Python 3.11);
    the digits one to nine follow each of them. *)
Definition decimal_zeros : list Z :=
  [48; 1632; 1776; 1984; 2406; 2534; 2662; 2790; 2918; 3046; 3174; 3302;
   3430; 3558; 3664; 3792; 3872; 4160; 4240; 6112; 6160; 6470; 6608; 6784;
   6800; 6992; 7088; 7232; 7248; 42528; 43216; 43264; 43472; 43504; 43600;
   44016; 65296; 66720; 68912; 69734; 69872; 69942; 70096; 70384; 70736;
   70864; 71248; 71360; 71472; 71904; 72016; 72784; 73040; 73120; 92768;
   92864; 93008; 120782; 120792; 120802; 120812; 120822; 123200; 123632;
   125264; 130032].

(** The decimal value of a digit of any script. *)
Definition unicode_decimal (ch : Z) : option Z :=
  match find (fun zero => (zero <=? ch) && (ch <? zero + 10)) decimal_zeros
  with
  | Some zero => Some (ch - zero)
  | None => None
  end.

Definition ascii_of_Z (n : Z) : ascii := ascii_of_nat (Z.to_nat n).

Fixpoint transform_to_ascii (chars : list (option Z)) : string :=
  match chars with
  | [] => EmptyString
  | None :: _ => "?"
  | Some ch :: rest =>
      if ch <? 127 then String (ascii_of_Z ch) (transform_to_ascii rest)
      else if is_unicode_space ch then String " " (transform_to_ascii rest)
      else match unicode_decimal ch with
           | Some d => String (ascii_of_Z (48 + d)) (transform_to_ascii rest)
           | None => "?"
           end
  end.

Fixpoint is_ascii_string (s : string) : bool :=
  match s with
  | EmptyString => true
  | String c r => (byte c <? 128) && is_ascii_string r
  end.

(** [float(s)] on a string of ASCII characters: [None] stands for
    [ValueError]. *)
Definition of_ascii_string (s : string) : option t :=
  match (if has_underscore s then drop_underscores None s else Some s) with
  | None => None
  | Some s1 =>
      match lstrip s1 with
      | EmptyString => None
      | s2 =>
          let s3 := rstrip s2 in
          match parse_decimal s3 with
          | Some x => Some x
          | None => parse_inf_or_nan s3
          end
      end
  end.

(** [float(s)]: [None] stands for [ValueError]. *)
Definition of_string (s : string) : option t :=
  of_ascii_string
    (if is_ascii_string s then s else transform_to_ascii (decode_utf8 s)).

(** [x.is_integer()] *)
Definition is_integer (x : t) : bool :=
  match x with
  | S754_zero _ => true
  | S754_finite _ m e =>
      if 0 <=? e then true else Zpos m mod 2 ^ (- e) =? 0
  | S754_infinity _ | S754_nan => false
  end.

(** Truncation towards zero of a finite value. *)
Definition trunc (x : t) : Z :=
  match x with
  | S754_finite s m e =>
      let a := if 0 <=? e then Zpos m * 2 ^ e else Zpos m / 2 ^ (- e) in
      if s then - a else a
  | _ => 0
  end.

Definition is_finite (x : t) : bool :=
  match x with
  | S754_zero _ | S754_finite _ _ _ => true
  | S754_infinity _ | S754_nan => false
  end.

(** [x] is finite and differs from the rational [num / den] (with
    [0 < den]) by at most half a unit of its last place. *)
Definition within_half_ulp (x : t) (num den : Z) : bool :=
  match x with
  | S754_finite s m e =>
      let v := if s then Zneg m else Zpos m in
      if 0 <=? e then 2 * Z.abs (v * 2 ^ e * den - num) <=? den * 2 ^ e
      else 2 * Z.abs (v * den - num * 2 ^ (- e)) <=? den
  | _ => false
  end.

End PyFloat.

(** ** Exceptions, results and the objects passed around *)

(** The subclasses of Python's [Exception] that the two files tell apart,
    each with the text [str(e)] gives.  [OtherException] is any other
    subclass of [Exception] (a transport error, an [AttributeError], ...).
    Exits and task cancellation, which derive from [BaseException] only,
    are not errors of an operation and are not modelled. *)
Inductive exn : Type :=
| TelegramBadRequest (message : string)
| ValueError (message : string)
| IndexError (message : string)
| OverflowError (message : string)
| OtherException (message : string).

(** [str(e)] *)
Definition str_exn (e : exn) : string :=
  match e with
  | TelegramBadRequest m | ValueError m | IndexError m
  | OverflowError m | OtherException m => m
  end.

Inductive result (A : Type) : Type :=
| Ret (a : A)
| Raise (e : exn).
Arguments Ret {A} a.
Arguments Raise {A} e.

Definition is_raise {A} (r : result A) : bool :=
  match r with Raise _ => true | Ret _ => false end.

Inductive Level : Type := DEBUG | INFO | WARNING | ERROR.

(** [aiogram.types.Message], with the fields the code reads.  [photo] is
    the optional list of photo sizes (by file id). *)
Record Message : Type := {
  message_id : Z;
  chat_id : Z;
  photo : option (list string)
}.

(** Truth value of [message.photo]: a non-empty list. *)
Definition has_photo (m : Message) : bool :=
  match photo m with
  | Some (_ :: _) => true
  | _ => false
  end.

(** An inline keyboard: rows of buttons. *)
Record InlineKeyboardButton : Type := {
  button_text : string;
  button_url : option string;
  button_callback_data : option string
}.
Definition Keyboard : Type := list (list InlineKeyboardButton).

Record LinkPreviewOptions : Type := { is_disabled : bool }.

Record InputMediaPhoto : Type := {
  media : string;
  media_caption : string;
  media_parse_mode : option string
}.

Record CallbackQuery : Type := {
  from_user_id : Z;
  cq_message : option Message;
  (** [callback.data]; the router only delivers strings. *)
  data : string
}.

(** The first argument of [render_menu_content]. *)
Inductive MenuEvent : Type :=
| OfMessage (m : Message)
| OfCallbackQuery (q : CallbackQuery)
| OfOther.

(** Operations of the chat surface, with their arguments. *)
Inductive SurfaceCall : Type :=
| EditMedia (m : Message) (media : InputMediaPhoto)
    (reply_markup : option Keyboard)
| EditCaption (m : Message) (caption : string)
    (reply_markup : option Keyboard) (parse_mode : option string)
| EditText (m : Message) (text : string)
    (reply_markup : option Keyboard) (parse_mode : option string)
    (link_preview_options : option LinkPreviewOptions)
| SendPhoto (chat : Z) (photo_path : string) (caption : string)
    (reply_markup : option Keyboard) (parse_mode : option string)
| SendMessage (chat : Z) (text : string)
    (reply_markup : option Keyboard) (parse_mode : option string)
    (link_preview_options : option LinkPreviewOptions)
| Answer (q : CallbackQuery) (text : option string)
    (show_alert : option bool).

(** The display helpers of [bot.handlers.user.subscription.core] that the
    payment handler calls. *)
Inductive HelperCall : Type :=
| RenderSubscribeMenu (m : Message) (text : string)
    (reply_markup : option Keyboard)
| SendMenuWithImage (m : Message) (text : string)
    (image_filename : option string) (reply_markup : option Keyboard).

(** Keyword arguments of [CryptoPayService.create_invoice] (the database
    session is part of the world). *)
Record InvoiceArgs : Type := {
  inv_user_id : Z;
  inv_months : PyFloat.t;
  inv_amount : PyFloat.t;
  inv_description : string;
  inv_sale_mode : string
}.

(** What one run does, in order. *)
Inductive Event : Type :=
| Called (c : SurfaceCall) (r : result unit)
| Logged (lvl : Level) (fmt : string) (args : list string)
| Invoiced (a : InvoiceArgs) (r : option string)
| InvoiceRaised (a : InvoiceArgs) (e : exn)
| Helped (c : HelperCall) (r : result unit).

(** Values of keyword arguments handed to the translation lookup. *)
Inductive PyVal : Type :=
| VInt (n : Z)
| VStr (s : string).

(** [JsonI18n], by its one method [gettext(lang, key, **kwargs)]. *)
Record JsonI18n : Type := {
  gettext : string -> string -> list (string * PyVal) -> string
}.

Record Settings : Type := {
  DEFAULT_LANGUAGE : string;
  DEFAULT_CURRENCY_SYMBOL : string
}.

(** The [i18n_data] dictionary: both keys may be missing. *)
Record I18nData : Type := {
  current_language : option string;
  i18n_instance : option JsonI18n
}.

(** [CryptoPayService], by its [configured] attribute. *)
Record CryptoPayService : Type := { configured : bool }.

(** *** Projections of a trace *)

Definition surface_calls (t : list Event) : list SurfaceCall :=
  flat_map (fun ev => match ev with Called c _ => [c] | _ => [] end) t.

Definition is_edit_media (c : SurfaceCall) : bool :=
  match c with EditMedia _ _ _ => true | _ => false end.
Definition is_edit_caption (c : SurfaceCall) : bool :=
  match c with EditCaption _ _ _ _ => true | _ => false end.
Definition is_edit_text (c : SurfaceCall) : bool :=
  match c with EditText _ _ _ _ _ => true | _ => false end.

Definition count_calls (p : SurfaceCall -> bool) (t : list Event) : nat :=
  List.length (filter p (surface_calls t)).

Definition is_error_log (ev : Event) : bool :=
  match ev with Logged ERROR _ _ => true | _ => false end.

Definition is_invoice (ev : Event) : bool :=
  match ev with
  | Invoiced _ _ | InvoiceRaised _ _ => true
  | _ => false
  end.

(** Every surface call that raised is followed at once by a log record. *)
Fixpoint failures_logged (t : list Event) : bool :=
  match t with
  | [] => true
  | Called _ (Raise _) :: rest =>
      match rest with
      | Logged _ _ _ :: _ => failures_logged rest
      | _ => false
      end
  | _ :: rest => failures_logged rest
  end.

(** No surface call of the trace returned normally. *)
Definition all_failed (t : list Event) : bool :=
  forallb (fun ev => match ev with Called _ (Ret _) => false | _ => true end) t.

(** *** Components of a run *)

Definition outcome_of {A W : Type} (x : result A * W * list Event)
    : result A := fst (fst x).
Definition world_of {A W : Type} (x : result A * W * list Event) : W :=
  snd (fst x).
Definition trace_of {A W : Type} (x : result A * W * list Event)
    : list Event := snd x.

(** The surface calls of a trace, each with its result. *)
Definition surface_events (t : list Event) : list Event :=
  filter (fun ev => match ev with Called _ _ => true | _ => false end) t.

(** [chk ev post] holds at every position of the trace, [post] being what
    follows the event [ev]. *)
Fixpoint all_suffixes (chk : Event -> list Event -> bool) (t : list Event)
    : bool :=
  match t with
  | [] => true
  | ev :: post => (chk ev post && all_suffixes chk post)%bool
  end.

Definition is_bad_request (e : exn) : bool :=
  match e with TelegramBadRequest _ => true | _ => false end.

(** *** The image store *)

Definition MENU_IMAGES_ROOT : string := "/app/bot/static/images".

(** The text of a POSIX path, as [pathlib] gives it: empty and "."
    components, doubled and trailing slashes are dropped; the root is "/"
    (or "//" for exactly two leading slashes); the empty path is ".". *)
Definition path_root (s : string) : string :=
  match s with
  | String "/" (String "/" (String "/" _)) => "/"
  | String "/" (String "/" _) => "//"
  | String "/" _ => "/"
  | _ => ""
  end.

Definition path_parts (s : string) : list string :=
  filter (fun part => negb (String.eqb part "" || String.eqb part "."))
    (PyStr.split "/" s).

Definition path_str (s : string) : string :=
  match path_root s ++ String.concat "/" (path_parts s) with
  | EmptyString => "."
  | text => text
  end.

(** [str(MENU_IMAGES_ROOT / image_filename)]; an absolute file name
    replaces the root. *)
Definition image_path_of (image_filename : string) : string :=
  path_str
    match image_filename with
    | String "/" _ => image_filename
    | _ => MENU_IMAGES_ROOT ++ "/" ++ image_filename
    end.
Arguments image_path_of : simpl never.

(** ** Pure steps of the payment handler

    Conversions and list accesses that return or raise without touching
    the world. *)

Definition rbind {A B} (r : result A) (f : A -> result B) : result B :=
  match r with
  | Ret a => f a
  | Raise e => Raise e
  end.

(** [float(s)] *)
Definition py_float (s : string) : result PyFloat.t :=
  match PyFloat.of_string s with
  | Some x => Ret x
  | None => Raise (ValueError "could not convert string to float")
  end.

(** [int(x)] for a float [x] *)
Definition py_int (x : PyFloat.t) : result Z :=
  match x with
  | S754_nan => Raise (ValueError "cannot convert float NaN to integer")
  | S754_infinity _ =>
      Raise (OverflowError "cannot convert float infinity to integer")
  | _ => Ret (PyFloat.trunc x)
  end.

(** [parts[i]] for [i >= 0] *)
Definition index (parts : list string) (i : nat) : result string :=
  match nth_error parts i with
  | Some s => Ret s
  | None => Raise (IndexError "list index out of range")
  end.

(** [a, b = l] *)
Definition unpack2 (l : list string) : result (string * string) :=
  match l with
  | [a; b] => Ret (a, b)
  | _ => Raise (ValueError "wrong number of values to unpack")
  end.

(** The body of the [try] of lines 41-46 of [payments_crypto.py]. *)
Definition parse_payload (payload : string)
    : result (PyFloat.t * PyFloat.t * string) :=
  rbind (unpack2 (PyStr.split1 ":" payload)) (fun p =>
  let data_payload := snd p in
  let parts := PyStr.split ":" data_payload in
  rbind (index parts 0) (fun s0 =>
  rbind (py_float s0) (fun months =>
  rbind (index parts 1) (fun s1 =>
  rbind (py_float s1) (fun price_amount =>
  rbind (if Nat.ltb 2 (List.length parts) then index parts 2
         else Ret "subscription") (fun sale_mode =>
  Ret (months, price_amount, sale_mode))))))).

(** *** Checks on traces used by the statements *)

(** After a text edit rejected with a reason that holds "message is not
    modified", nothing is logged at error severity and no surface call
    follows. *)
Definition benign_text_rejection (ev : Event) (post : list Event) : bool :=
  match ev with
  | Called c (Raise e) =>
      if (is_edit_text c && is_bad_request e
          && PyStr.contains "message is not modified"
               (PyStr.lower (str_exn e)))%bool
      then (negb (existsb is_error_log post)
            && match surface_calls post with [] => true | _ => false end)%bool
      else true
  | _ => true
  end.

Definition is_ret_false (r : result bool) : bool :=
  match r with Ret false => true | _ => false end.



(** *** Further checks on traces *)

Definition is_send_photo (c : SurfaceCall) : bool :=
  match c with SendPhoto _ _ _ _ _ => true | _ => false end.

(** A surface call that returned is the last event. *)
Definition stops_at_success (ev : Event) (post : list Event) : bool :=
  match ev with
  | Called _ (Ret _) => match post with [] => true | _ => false end
  | _ => true
  end.

(** Some call that shows an image (media edit, caption edit, photo send)
    returned. *)
Definition image_call_succeeded (t : list Event) : bool :=
  existsb
    (fun ev =>
       match ev with
       | Called c (Ret _) =>
           (is_edit_media c || is_edit_caption c || is_send_photo c)%bool
       | _ => false
       end) t.

(** The calls that may come after a call within one run: after a media
    edit or a caption edit only a caption edit or a text edit, after a
    photo send only a text send, and nothing after a text edit, a text
    send or an answer. *)
Definition may_follow (c c' : SurfaceCall) : bool :=
  match c, c' with
  | EditMedia _ _ _, EditCaption _ _ _ _
  | EditMedia _ _ _, EditText _ _ _ _ _
  | EditCaption _ _ _ _, EditCaption _ _ _ _
  | EditCaption _ _ _ _, EditText _ _ _ _ _
  | SendPhoto _ _ _ _ _, SendMessage _ _ _ _ _ => true
  | _, _ => false
  end.

(** Every later call may follow this one. *)
Definition stage_order (ev : Event) (post : list Event) : bool :=
  match ev with
  | Called c _ => forallb (may_follow c) (surface_calls post)
  | _ => true
  end.

Definition is_error_level (lvl : Level) : bool :=
  match lvl with ERROR => true | _ => false end.

(** A call that raised is followed by a log record: below error severity
    for a rejected media or caption edit, at error severity for anything
    that is not a rejection. *)
Definition failure_severity (ev : Event) (post : list Event) : bool :=
  match ev with
  | Called c (Raise e) =>
      match post with
      | Logged lvl _ _ :: _ =>
          if is_bad_request e
          then (is_edit_text c || negb (is_error_level lvl))%bool
          else is_error_level lvl
      | _ => false
      end
  | _ => true
  end.

(** *** Checks on the traces of the payment handler *)

Definition is_render_help (ev : Event) : bool :=
  match ev with
  | Helped (RenderSubscribeMenu _ _ _) _ => true
  | _ => false
  end.

Definition is_send_help (ev : Event) : bool :=
  match ev with
  | Helped (SendMenuWithImage _ _ _ _) _ => true
  | _ => false
  end.

Definition is_helped (ev : Event) : bool :=
  match ev with Helped _ _ => true | _ => false end.

Definition count_events (p : Event -> bool) (t : list Event) : nat :=
  List.length (filter p t).

(** A display helper is called only in a run that starts with an invoice
    creation that returned a non-empty URL. *)
Definition helpers_follow_invoice (t : list Event) : bool :=
  (negb (existsb is_helped t)
   || match t with
      | Invoiced _ (Some url) :: _ => PyStr.truthy url
      | _ => false
      end)%bool.

(** Truth value of the gateway's answer: a non-empty URL. *)
Definition url_truthy (r : option string) : bool :=
  match r with Some url => PyStr.truthy url | None => false end.

(** ** A scripted world

    A concrete world for running the embedding: surface and helper calls
    take their results from a script, one per call (a call succeeds once
    the script is used up), the image store is a list of paths, and the
    gateway answers from a script of its own, or raises when it is
    down. *)

Record Fake : Type := {
  script : list (result unit);
  files : list string;
  invoices : list (option string);
  gateway_error : option exn
}.

Definition fake_step (w : Fake) : result unit * Fake :=
  match script w with
  | [] => (Ret tt, w)
  | r :: rest =>
      (r, {| script := rest; files := files w; invoices := invoices w;
             gateway_error := gateway_error w |})
  end.

Definition fake_surface (_ : SurfaceCall) (w : Fake) : result unit * Fake :=
  fake_step w.

Definition fake_helper (_ : HelperCall) (w : Fake) : result unit * Fake :=
  fake_step w.

Definition fake_is_file (path : string) (w : Fake) : bool :=
  existsb (String.eqb path) (files w).

Definition fake_create_invoice (_ : CryptoPayService) (_ : InvoiceArgs)
    (w : Fake) : result (option string) * Fake :=
  match gateway_error w with
  | Some e => (Raise e, w)
  | None =>
      match invoices w with
      | [] => (Ret None, w)
      | r :: rest =>
          (Ret r, {| script := script w; files := files w; invoices := rest;
                     gateway_error := None |})
      end
  end.

Definition fake_menu_image_if_exists (name : string) (w : Fake)
    : option string :=
  if fake_is_file (image_path_of name) w then Some name else None.

(** A keyboard builder for the runs: the payment link and a back button. *)
Definition fake_keyboard (url lang : string) (i18n : JsonI18n)
    (back_callback back_text_key : string) : result Keyboard :=
  Ret [[{| button_text := gettext i18n lang "pay_button" [];
           button_url := Some url; button_callback_data := None |}];
       [{| button_text := gettext i18n lang back_text_key [];
           button_url := None;
           button_callback_data := Some back_callback |}]].

(** A translation table that echoes the key. *)
Definition echo_i18n : JsonI18n := {| gettext := fun _ key _ => key |}.

Definition fake_format (x : PyFloat.t) : string :=
  match x with
  | S754_nan => "nan"
  | S754_infinity false => "inf"
  | S754_infinity true => "-inf"
  | _ => "float"
  end.

(** *** Sample inputs for the runs *)

Definition text_message : Message :=
  {| message_id := 7; chat_id := 42; photo := None |}.

Definition photo_message : Message :=
  {| message_id := 8; chat_id := 42; photo := Some ["AgACAgIAAx0"] |}.

Definition menu_png_path : string := "/app/bot/static/images/menu.png".

Definition fake_world (answers : list (result unit)) (paths : list string)
    (urls : list (option string)) : Fake :=
  {| script := answers; files := paths; invoices := urls;
     gateway_error := None |}.

(** A world whose gateway raises. *)
Definition fake_world_gateway_down (e : exn) : Fake :=
  {| script := []; files := []; invoices := []; gateway_error := Some e |}.

Definition html : option string := Some "HTML".

Definition no_preview : option LinkPreviewOptions :=
  Some {| is_disabled := true |}.

Definition sample_settings : Settings :=
  {| DEFAULT_LANGUAGE := "en"; DEFAULT_CURRENCY_SYMBOL := "$" |}.

Definition sample_i18n_data : I18nData :=
  {| current_language := Some "ru"; i18n_instance := Some echo_i18n |}.

Definition sample_callback (payload : string) : CallbackQuery :=
  {| from_user_id := 1001; cq_message := Some text_message;
     data := payload |}.

Definition sample_keyboard : Keyboard :=
  [[{| button_text := "pay_button"; button_url := Some "https://pay.example/inv1";
       button_callback_data := None |}];
   [{| button_text := "back_to_payment_methods_button"; button_url := None;
       button_callback_data := Some "subscribe_period:3" |}]].

Definition sample_invoice_args : InvoiceArgs :=
  {| inv_user_id := 1001;
     inv_months := S754_finite false 6755399441055744 (-51);
     inv_amount := S754_finite false 5623870034678907 (-49);
     inv_description := "payment_description_subscription";
     inv_sale_mode := "subscription" |}.

Definition sample_url : string := "https://pay.example/inv1".

(** ** The embedding *)

Section Bot.

(** The state of everything outside the process: the chat surface, the
    image directory, the gateway, the database. *)
Variable World : Type.

(** The chat surface client: any call may return or raise. *)
Variable surface : SurfaceCall -> World -> result unit * World.

(** [Path.is_file], on the current state of the image directory. *)
Variable is_file : string -> World -> bool.

(** The monad: a result, the new world, and the events of the run. *)
Definition M (A : Type) : Type := World -> result A * World * list Event.

Definition ret {A} (a : A) : M A := fun w => (Ret a, w, []).

Definition raise {A} (e : exn) : M A := fun w => (Raise e, w, []).

Definition bind {A B} (m : M A) (f : A -> M B) : M B :=
  fun w =>
    match m w with
    | (Ret a, w1, t1) => let '(r, w2, t2) := f a w1 in (r, w2, (t1 ++ t2)%list)
    | (Raise e, w1, t1) => (Raise e, w1, t1)
    end.

(** [try: body / except ... as e: handler e]; a handler re-raises what
    its clauses do not match. *)
Definition try_except {A} (body : M A) (handler : exn -> M A) : M A :=
  fun w =>
    match body w with
    | (Raise e, w1, t1) =>
        let '(r, w2, t2) := handler e w1 in (r, w2, (t1 ++ t2)%list)
    | done => done
    end.

(** The two clauses [except TelegramBadRequest as e: ...] and
    [except Exception as e: ...] of one [try]. *)
Definition except_bad_request {A} (on_bad_request otherwise : exn -> M A)
    (e : exn) : M A :=
  match e with
  | TelegramBadRequest _ => on_bad_request e
  | _ => otherwise e
  end.

Definition lift {A} (r : result A) : M A := fun w => (r, w, []).

Definition call (c : SurfaceCall) : M unit :=
  fun w => let '(r, w1) := surface c w in (r, w1, [Called c r]).

Definition log (lvl : Level) (fmt : string) (args : list string) : M unit :=
  fun w => (Ret tt, w, [Logged lvl fmt args]).

Definition path_is_file (p : string) : M bool :=
  fun w => (Ret (is_file p w), w, []).

Notation "x <- m ;; k" := (bind m (fun x => k))
  (at level 61, m at next level, right associativity).
Notation "m ;; k" := (bind m (fun _ => k))
  (at level 61, right associativity).

(** *** [bot/utils/menu_renderer.py]

    A stage yields [Some b] when the function returns [b] there and
    [None] when control falls through to the next statement. *)

(** The caption fallback inside the handler of a rejected media edit
    (lines 53-72). *)
Definition caption_after_media (message : Message) (text : string)
    (image_path : string) (reply_markup : option Keyboard)
    (parse_mode : option string) : M (option bool) :=
  if has_photo message then
    try_except
      (call (EditCaption message text reply_markup parse_mode) ;;
       ret (Some true))
      (except_bad_request
         (fun caption_error =>
            log WARNING "Failed to edit caption for menu image %s: %s"
              [image_path; str_exn caption_error] ;;
            ret None)
         (fun caption_error =>
            log ERROR "Unexpected error while editing caption for %s: %s"
              [image_path; str_exn caption_error] ;;
            ret None))
  else ret None.

(** Lines 36-80. *)
Definition media_stage (message : Message) (text : string)
    (image_filename : option string) (reply_markup : option Keyboard)
    (parse_mode : option string) : M (option bool) :=
  match image_filename with
  | Some name =>
      if PyStr.truthy name then
        let image_path := image_path_of name in
        found <- path_is_file image_path ;;
        if found then
          try_except
            (call (EditMedia message
                     {| media := image_path; media_caption := text;
                        media_parse_mode := parse_mode |}
                     reply_markup) ;;
             ret (Some true))
            (except_bad_request
               (fun media_error =>
                  log WARNING "Failed to edit media for menu using %s: %s"
                    [image_path; str_exn media_error] ;;
                  caption_after_media message text image_path
                    reply_markup parse_mode)
               (fun media_error =>
                  log ERROR
                    "Unexpected error while editing menu media %s: %s"
                    [image_path; str_exn media_error] ;;
                  ret None))
        else
          log WARNING "Menu image file not found: %s" [image_path] ;;
          ret None
      else ret None
  | None => ret None
  end.

(** Lines 84-105. *)
Definition caption_stage (message : Message) (text : string)
    (reply_markup : option Keyboard) (parse_mode : option string)
    : M (option bool) :=
  if has_photo message then
    try_except
      (call (EditCaption message text reply_markup parse_mode) ;;
       ret (Some true))
      (except_bad_request
         (fun caption_error =>
            (if PyStr.contains "not modified"
                  (PyStr.lower (str_exn caption_error))
             then log DEBUG "Menu caption not modified for message %s"
                    [PyStr.of_Z (message_id message)]
             else log WARNING "Failed to edit existing menu caption: %s"
                    [str_exn caption_error]) ;;
            ret None)
         (fun caption_error =>
            log ERROR
              "Unexpected error while editing existing menu caption: %s"
              [str_exn caption_error] ;;
            ret None))
  else ret None.

(** Lines 107-121. *)
Definition text_stage (message : Message) (text : string)
    (reply_markup : option Keyboard) (parse_mode : option string)
    (link_preview_options : option LinkPreviewOptions) : M bool :=
  try_except
    (call (EditText message text reply_markup parse_mode
             link_preview_options))
    (except_bad_request
       (fun text_error =>
          if PyStr.contains "message is not modified"
               (PyStr.lower (str_exn text_error))
          then log DEBUG "Menu text not modified for message %s"
                 [PyStr.of_Z (message_id message)]
          else log ERROR "Failed to edit menu text: %s"
                 [str_exn text_error])
       (fun text_error =>
          log ERROR "Unexpected error while editing menu text: %s"
            [str_exn text_error])) ;;
  ret false.

Definition update_menu_message (message : option Message) (text : string)
    (image_filename : option string) (reply_markup : option Keyboard)
    (parse_mode : option string) (disable_link_preview : bool) : M bool :=
  match message with
  | None =>
      log ERROR "update_menu_message called without a message instance" [] ;;
      ret false
  | Some message =>
      let link_preview_options :=
        if disable_link_preview then Some {| is_disabled := true |}
        else None in
      r1 <- media_stage message text image_filename reply_markup
              parse_mode ;;
      match r1 with
      | Some b => ret b
      | None =>
          r2 <- caption_stage message text reply_markup parse_mode ;;
          match r2 with
          | Some b => ret b
          | None =>
              text_stage message text reply_markup parse_mode
                link_preview_options
          end
      end
  end.

(** Lines 161-178: the photo of a new message. *)
Definition photo_stage (target_message : Message) (text : string)
    (image_filename : option string) (reply_markup : option Keyboard)
    (parse_mode : option string) : M (option bool) :=
  match image_filename with
  | Some name =>
      if PyStr.truthy name then
        let image_path := image_path_of name in
        found <- path_is_file image_path ;;
        if found then
          try_except
            (call (SendPhoto (chat_id target_message) image_path text
                     reply_markup parse_mode) ;;
             ret (Some true))
            (fun send_photo_error =>
               log WARNING "Failed to send menu photo %s: %s"
                 [image_path; str_exn send_photo_error] ;;
               ret None)
        else ret None
      else ret None
  | None => ret None
  end.

Definition render_menu_content (event : MenuEvent) (text : string)
    (image_filename : option string) (reply_markup : option Keyboard)
    (parse_mode : option string) (disable_link_preview : bool) : M bool :=
  let target_message :=
    match event with
    | OfCallbackQuery q => cq_message q
    | OfMessage m => Some m
    | OfOther => None
    end in
  match target_message with
  | None =>
      log ERROR "render_menu_content called without a target message" [] ;;
      ret false
  | Some target =>
      match event with
      | OfCallbackQuery _ =>
          update_menu_message (Some target) text image_filename
            reply_markup parse_mode disable_link_preview
      | _ =>
          let image_used := false in
          r <- photo_stage target text image_filename reply_markup
                 parse_mode ;;
          match r with
          | Some b => ret b
          | None =>
              try_except
                (let link_preview_options :=
                   if disable_link_preview
                   then Some {| is_disabled := true |} else None in
                 call (SendMessage (chat_id target) text reply_markup
                         parse_mode link_preview_options))
                (fun send_text_error =>
                   log ERROR "Failed to send menu text: %s"
                     [str_exn send_text_error]) ;;
              ret image_used
          end
      end
  end.

(** *** [bot/handlers/user/subscription/payments_crypto.py] *)

(** [CryptoPayService.create_invoice]: a URL or [None], or an
    exception. *)
Variable create_invoice :
  CryptoPayService -> InvoiceArgs -> World -> result (option string) * World.

(** [render_subscribe_menu] and [_send_menu_with_image] of
    [bot.handlers.user.subscription.core]: any call may return or raise. *)
Variable helper : HelperCall -> World -> result unit * World.

(** [_menu_image_if_exists] of the same module: a look at the image
    directory that yields a file name or [None]. *)
Variable _menu_image_if_exists : string -> World -> option string.

(** [get_payment_url_keyboard(url, lang, i18n, back_callback=...,
    back_text_key=...)] of [bot.keyboards.inline.user_keyboards]: a
    function of its arguments. *)
Variable get_payment_url_keyboard :
  string -> string -> JsonI18n -> string -> string -> result Keyboard.

(** The format [f"{x:g}"] and [str(x)] of a float. *)
Variable format_g : PyFloat.t -> string.
Variable str_float : PyFloat.t -> string.

Definition invoke (svc : CryptoPayService) (a : InvoiceArgs)
    : M (option string) :=
  fun w =>
    let '(r, w1) := create_invoice svc a w in
    (r, w1, [match r with
             | Ret url => Invoiced a url
             | Raise e => InvoiceRaised a e
             end]).

Definition help (c : HelperCall) : M unit :=
  fun w => let '(r, w1) := helper c w in (r, w1, [Helped c r]).

Definition menu_image_if_exists (name : string) : M (option string) :=
  fun w => (Ret (_menu_image_if_exists name w), w, []).

(** [try: await callback.answer(text, show_alert) / except Exception: pass] *)
Definition answer_quietly (callback : CallbackQuery) (text : option string)
    (show_alert : option bool) : M unit :=
  try_except (call (Answer callback text show_alert)) (fun _ => ret tt).

Definition BACK_TEXT_KEY : string := "back_to_payment_methods_button".

(** Lines 81-108: show the payment link. *)
Definition show_payment_link (message : Message) (payment_text : string)
    (invoice_url current_lang : string) (i18n : JsonI18n)
    (human_value : string) : M unit :=
  try_except
    (kb <- lift (get_payment_url_keyboard invoice_url current_lang i18n
                   ("subscribe_period:" ++ human_value) BACK_TEXT_KEY) ;;
     help (RenderSubscribeMenu message payment_text (Some kb)))
    (fun _ =>
       try_except
         (image <- menu_image_if_exists "menu_subscribe.png" ;;
          kb <- lift (get_payment_url_keyboard invoice_url current_lang
                        i18n ("subscribe_period:" ++ human_value)
                        BACK_TEXT_KEY) ;;
          help (SendMenuWithImage message payment_text image (Some kb)))
         (fun _ => ret tt)).

(** Lines 54-118: what follows a successful parse. *)
Definition after_parse (callback : CallbackQuery) (settings : Settings)
    (message : Message) (current_lang : string) (i18n : JsonI18n)
    (cryptopay_service : CryptoPayService)
    (months price_amount : PyFloat.t) (sale_mode : string) : M unit :=
  let get_text := gettext i18n current_lang in
  let user_id := from_user_id callback in
  human_value <- (if PyFloat.is_integer months
                  then n <- lift (py_int months) ;; ret (PyStr.of_Z n)
                  else ret (format_g months)) ;;
  payment_description <-
    (if String.eqb sale_mode "traffic"
     then ret (get_text "payment_description_traffic"
                 [("traffic_gb", VStr human_value)])
     else n <- lift (py_int months) ;;
          ret (get_text "payment_description_subscription"
                 [("months", VInt n)])) ;;
  let price_display :=
    if String.eqb sale_mode "traffic" then human_value
    else str_float price_amount in
  let currency_symbol := DEFAULT_CURRENCY_SYMBOL settings in
  invoice_url <- invoke cryptopay_service
                   {| inv_user_id := user_id;
                      inv_months := months;
                      inv_amount := price_amount;
                      inv_description := payment_description;
                      inv_sale_mode := sale_mode |} ;;
  match invoice_url with
  | Some url =>
      if PyStr.truthy url then
        n <- lift (py_int months) ;;
        let payment_text :=
          get_text
            (if String.eqb sale_mode "traffic"
             then "payment_link_message_traffic"
             else "payment_link_message")
            [("months", VInt n); ("traffic_gb", VStr human_value);
             ("price", VStr price_display);
             ("currency_symbol", VStr currency_symbol)] in
        show_payment_link message payment_text url current_lang i18n
          human_value ;;
        answer_quietly callback None None
      else
        answer_quietly callback (Some (get_text "error_payment_gateway" []))
          (Some true)
  | None =>
      answer_quietly callback (Some (get_text "error_payment_gateway" []))
        (Some true)
  end.

Definition pay_crypto_callback_handler (callback : CallbackQuery)
    (settings : Settings) (i18n_data : I18nData)
    (cryptopay_service : option CryptoPayService) : M unit :=
  let current_lang :=
    match current_language i18n_data with
    | Some l => l
    | None => DEFAULT_LANGUAGE settings
    end in
  let i18n := i18n_instance i18n_data in
  let get_text key kwargs :=
    match i18n with
    | Some i => gettext i current_lang key kwargs
    | None => key
    end in
  match i18n, cq_message callback with
  | Some i, Some message =>
      match cryptopay_service with
      | Some svc =>
          if configured svc then
            parsed <-
              try_except
                (r <- lift (parse_payload (data callback)) ;; ret (Some r))
                (fun e =>
                   match e with
                   | ValueError _ | IndexError _ =>
                       answer_quietly callback
                         (Some (get_text "error_try_again" []))
                         (Some true) ;;
                       ret None
                   | _ => raise e
                   end) ;;
            match parsed with
            | None => ret tt
            | Some (months, price_amount, sale_mode) =>
                after_parse callback settings message current_lang i svc
                  months price_amount sale_mode
            end
          else
            answer_quietly callback
              (Some (get_text "payment_service_unavailable_alert" []))
              (Some true)
      | None =>
          answer_quietly callback
            (Some (get_text "payment_service_unavailable_alert" []))
            (Some true)
      end
  | _, _ =>
      answer_quietly callback
        (Some (get_text "error_occurred_try_again" [])) (Some true)
  end.

(** ** Properties of the menu renderer *)

Lemma except_bad_request_bad {A} (f g : exn -> M A) e :
  is_bad_request e = true -> except_bad_request f g e = f e.
Proof. destruct e; simpl; intros H; try discriminate H; reflexivity. Qed.

Lemma except_bad_request_other {A} (f g : exn -> M A) e :
  is_bad_request e = false -> except_bad_request f g e = g e.
Proof. destruct e; simpl; intros H; try discriminate H; reflexivity. Qed.

Ltac run_defs :=
  unfold update_menu_message, render_menu_content, media_stage,
    caption_after_media, caption_stage, text_stage, photo_stage,
    answer_quietly, bind, ret, raise, try_except, lift, call, log,
    path_is_file, outcome_of, world_of, trace_of.

(** The class of a raised exception decides the [except] clause. *)
Ltac split_exn e :=
  let Hb := fresh "Hbad" in
  destruct (is_bad_request e) eqn:Hb;
  [ rewrite ?(except_bad_request_bad _ _ e Hb)
  | rewrite ?(except_bad_request_other _ _ e Hb) ].

(** One case split on the next external answer the goal depends on. *)
Ltac run_step :=
  match goal with
  | |- context [surface ?c ?w] =>
      let r := fresh "r" in
      let w' := fresh "w" in
      let e := fresh "e" in
      destruct (surface c w) as [r w'] eqn:?;
      destruct r as [[]|e]; [ | split_exn e ]
  | |- context [is_file ?p ?w] => destruct (is_file p w) eqn:?
  | |- context [has_photo ?m] => destruct (has_photo m) eqn:?
  | |- context [PyStr.truthy ?n] => destruct (PyStr.truthy n) eqn:?
  | |- context [PyStr.contains ?p ?s] =>
      destruct (PyStr.contains p s) eqn:?
  end; cbn.

Ltac run_cases := run_defs; cbn; repeat run_step.

Lemma update_menu_message_returns w message text image_filename
    reply_markup parse_mode disable_link_preview :
  let u := update_menu_message message text image_filename reply_markup
             parse_mode disable_link_preview w in
  (exists b, outcome_of u = Ret b
             /\ (all_failed (trace_of u) && b)%bool = false)
  /\ failures_logged (trace_of u) = true.
Proof.
  destruct message as [message|], image_filename as [name|];
    run_cases; (split; [eexists; split; reflexivity | reflexivity]).
Qed.

(** C1: for every request and whatever the chat surface answers,
    [update_menu_message] and [render_menu_content] return a boolean and
    never raise; every surface call that raised is followed by a log
    record; and when no surface call succeeded the value is [False]. *)
Theorem menu_renderer_never_raises w message event text image_filename
    reply_markup parse_mode disable_link_preview :
  let u := update_menu_message message text image_filename reply_markup
             parse_mode disable_link_preview w in
  let r := render_menu_content event text image_filename reply_markup
             parse_mode disable_link_preview w in
  ((exists b, outcome_of u = Ret b
              /\ (all_failed (trace_of u) && b)%bool = false)
   /\ failures_logged (trace_of u) = true)
  /\
  ((exists b, outcome_of r = Ret b
              /\ (all_failed (trace_of r) && b)%bool = false)
   /\ failures_logged (trace_of r) = true).
Proof.
  split; [apply update_menu_message_returns|].
  destruct event as [m|q|].
  - destruct image_filename as [name|]; run_cases;
      (split; [eexists; split; reflexivity | reflexivity]).
  - unfold render_menu_content.
    destruct (cq_message q) as [m|].
    + apply update_menu_message_returns.
    + cbn. split; [exists false; split; reflexivity | reflexivity].
  - cbn. split; [exists false; split; reflexivity | reflexivity].
Qed.


(** C5: in send mode with an existing image file, a photo send that
    succeeds is the only call and the value is [True]; a photo send that
    raises is followed by exactly one text send, with the text, the
    controls and the link-preview setting, and the value is [False]
    whatever that text send does. *)
Theorem send_mode_single_text_fallback w m text name reply_markup
    parse_mode disable_link_preview r w1 :
  PyStr.truthy name = true ->
  is_file (image_path_of name) w = true ->
  surface (SendPhoto (chat_id m) (image_path_of name) text reply_markup
             parse_mode) w = (r, w1) ->
  let run := render_menu_content (OfMessage m) text (Some name)
               reply_markup parse_mode disable_link_preview w in
  let photo := SendPhoto (chat_id m) (image_path_of name) text
                 reply_markup parse_mode in
  let fallback :=
    SendMessage (chat_id m) text reply_markup parse_mode
      (if disable_link_preview then Some {| is_disabled := true |}
       else None) in
  match r with
  | Ret _ => run = (Ret true, w1, [Called photo r])
  | Raise e =>
      exists r2 w2,
        surface fallback w1 = (r2, w2)
        /\ outcome_of run = Ret false
        /\ world_of run = w2
        /\ surface_events (trace_of run)
           = [Called photo (Raise e); Called fallback r2]
  end.
Proof.
  intros Hname Hfile Hphoto.
  run_defs; cbn. rewrite Hname; cbn. rewrite Hfile, Hphoto; cbn.
  destruct r as [[]|e]; cbn; [reflexivity|].
  destruct disable_link_preview;
    match goal with
    | |- context [surface ?c w1] =>
        destruct (surface c w1) as [r2 w2] eqn:Hsend
    end;
    exists r2, w2; destruct r2 as [[]|e2]; cbn; repeat split; reflexivity.
Qed.

(** C7, as amended: in one call of [update_menu_message] the media edit
    and the text edit are invoked at most once each, and the caption
    edit at most twice (once inside the handler of a rejected media
    edit, once in the caption step that follows). *)
Theorem update_stage_call_bounds w message text image_filename
    reply_markup parse_mode disable_link_preview :
  let t := trace_of (update_menu_message message text image_filename
                       reply_markup parse_mode disable_link_preview w) in
  (count_calls is_edit_media t <= 1)%nat
  /\ (count_calls is_edit_caption t <= 2)%nat
  /\ (count_calls is_edit_text t <= 1)%nat.
Proof.
  destruct message as [message|], image_filename as [name|];
    run_cases; unfold count_calls; cbn; repeat split; auto with arith.
Qed.

(** C8, as amended: when the media edit raises anything but a surface
    rejection, the error is logged at error severity and the next
    surface call is the caption edit when the message carries a photo,
    and the text edit when it carries none. *)
Theorem media_error_falls_to_next_stage w m text name reply_markup
    parse_mode disable_link_preview e w1 :
  let media_call :=
    EditMedia m {| media := image_path_of name; media_caption := text;
                   media_parse_mode := parse_mode |} reply_markup in
  PyStr.truthy name = true ->
  is_file (image_path_of name) w = true ->
  surface media_call w = (Raise e, w1) ->
  is_bad_request e = false ->
  exists tail,
    trace_of (update_menu_message (Some m) text (Some name) reply_markup
                parse_mode disable_link_preview w)
    = Called media_call (Raise e)
      :: Logged ERROR "Unexpected error while editing menu media %s: %s"
           [image_path_of name; str_exn e]
      :: tail
    /\ hd_error (surface_calls tail)
       = Some (if has_photo m
               then EditCaption m text reply_markup parse_mode
               else EditText m text reply_markup parse_mode
                      (if disable_link_preview
                       then Some {| is_disabled := true |} else None)).
Proof.
  intros media_call Hname Hfile Hmedia Hother. subst media_call.
  run_defs; cbn. rewrite Hname; cbn. rewrite Hfile, Hmedia; cbn.
  rewrite (except_bad_request_other _ _ e Hother); cbn.
  repeat run_step; eexists; split; reflexivity.
Qed.

Lemma all_suffixes_at chk t :
  all_suffixes chk t = true ->
  forall pre ev post, t = (pre ++ ev :: post)%list -> chk ev post = true.
Proof.
  intros H pre. revert t H.
  induction pre as [|x pre IH]; intros t H ev post ->; simpl in H;
    apply andb_prop in H; destruct H as [H1 H2].
  - exact H1.
  - eapply IH; [exact H2 | reflexivity].
Qed.

Lemma surface_calls_app t1 t2 :
  surface_calls (t1 ++ t2) = (surface_calls t1 ++ surface_calls t2)%list.
Proof. apply flat_map_app. Qed.

Ltac use_exn_class :=
  repeat match goal with
         | H : is_bad_request ?e = _ |- context [is_bad_request ?e] =>
             rewrite H
         end.

Lemma update_text_rejection_checked w message text image_filename
    reply_markup parse_mode disable_link_preview :
  let u := update_menu_message message text image_filename reply_markup
             parse_mode disable_link_preview w in
  all_suffixes benign_text_rejection (trace_of u) = true
  /\ (negb (existsb is_edit_text (surface_calls (trace_of u)))
      || is_ret_false (outcome_of u))%bool = true.
Proof.
  destruct message as [message|], image_filename as [name|];
    run_cases; use_exn_class; cbn;
    try congruence;
    repeat match goal with
           | H : PyStr.contains _ _ = _ |- _ => rewrite H
           end; split; reflexivity.
Qed.

(** C3, as amended: in update mode, after a text edit rejected with a
    reason that holds "message is not modified" (in any letter case),
    nothing is logged at error severity, no further surface call is
    made, and the value is [False]. *)
Theorem text_edit_message_not_modified_benign w message text
    image_filename reply_markup parse_mode disable_link_preview
    pre c reason post :
  let u := update_menu_message message text image_filename reply_markup
             parse_mode disable_link_preview w in
  trace_of u
    = (pre ++ Called c (Raise (TelegramBadRequest reason)) :: post)%list ->
  is_edit_text c = true ->
  PyStr.contains "message is not modified" (PyStr.lower reason) = true ->
  existsb is_error_log post = false
  /\ surface_calls post = []
  /\ outcome_of u = Ret false.
Proof.
  intros u Htrace Hc Hreason.
  destruct (update_text_rejection_checked w message text image_filename
              reply_markup parse_mode disable_link_preview)
    as [Hall Hret].
  fold u in Hall, Hret.
  pose proof (all_suffixes_at _ _ Hall _ _ _ Htrace) as Hchk.
  cbn in Hchk. rewrite Hc, Hreason in Hchk. cbn in Hchk.
  apply andb_prop in Hchk. destruct Hchk as [Hlog Hcalls].
  rewrite Htrace, surface_calls_app, existsb_app in Hret.
  cbn in Hret. rewrite Hc in Hret. cbn in Hret.
  rewrite orb_true_r in Hret. cbn in Hret.
  repeat split.
  - now apply negb_true_iff in Hlog.
  - destruct (surface_calls post); [reflexivity | discriminate].
  - destruct (outcome_of u) as [[|]|]; [discriminate | reflexivity | discriminate].
Qed.

(** ** Properties of the payment handler *)

Ltac handler_defs :=
  unfold pay_crypto_callback_handler, after_parse, show_payment_link,
    answer_quietly, invoke, help, menu_image_if_exists, bind, ret, raise,
    try_except, lift, call, outcome_of, world_of, trace_of.

Ltac simpl_run :=
  cbn -[PyFloat.trunc PyFloat.is_integer PyStr.of_Z String.append].

Ltac handler_step :=
  match goal with
  | |- context [surface ?c ?w] =>
      let r := fresh "r" in
      let w' := fresh "w" in
      destruct (surface c w) as [r w'] eqn:?; destruct r as [[]|?]
  | |- context [helper ?c ?w] =>
      let r := fresh "r" in
      let w' := fresh "w" in
      destruct (helper c w) as [r w'] eqn:?; destruct r as [[]|?]
  | |- context [create_invoice ?s ?a ?w] =>
      let r := fresh "url" in
      let w' := fresh "w" in
      destruct (create_invoice s a w) as [r w'] eqn:?;
      destruct r as [[r|]|?]; [destruct (PyStr.truthy r) eqn:?| |]
  | |- context [get_payment_url_keyboard ?a ?b ?c ?d ?e] =>
      destruct (get_payment_url_keyboard a b c d e) eqn:?
  | |- context [String.eqb ?a "traffic"] =>
      destruct (String.eqb a "traffic") eqn:?
  end; simpl_run.

(** Case split on the class of the parsed quantity. *)
Ltac split_quantity months :=
  let s := fresh "s" in
  let m := fresh "m" in
  let e := fresh "e" in
  simpl_run;
  destruct months as [s|s| |s m e];
  [ cbn [PyFloat.is_integer]
  | cbn [PyFloat.is_integer]
  | cbn [PyFloat.is_integer]
  | destruct (PyFloat.is_integer (S754_finite s m e)) eqn:? ].

Lemma parse_3_999 :
  parse_payload "pay_crypto:3:9.99"
  = Ret (S754_finite false 6755399441055744 (-51),
         S754_finite false 5623870034678907 (-49), "subscription").
Proof. vm_compute. reflexivity. Qed.

Lemma parse_10_5_traffic :
  parse_payload "pay_crypto:10:5:traffic"
  = Ret (S754_finite false 5629499534213120 (-49),
         S754_finite false 5629499534213120 (-50), "traffic").
Proof. vm_compute. reflexivity. Qed.

Lemma parse_abc :
  parse_payload "pay_crypto:abc"
  = Raise (ValueError "could not convert string to float").
Proof. vm_compute. reflexivity. Qed.

Lemma parse_nan_1 :
  parse_payload "pay_crypto:nan:1"
  = Ret (S754_nan, S754_finite false 4503599627370496 (-52),
         "subscription").
Proof. vm_compute. reflexivity. Qed.

(** C2: the payload "pay_crypto:3:9.99" parses to the quantity 3, the
    price 9.99 (the nearest binary64 value) and the sale mode
    "subscription"; "pay_crypto:10:5:traffic" to 10, 5 and "traffic";
    on "pay_crypto:abc" the parse fails, the handler answers with the
    retry alert and nothing else happens: no invoice is created. *)
Theorem payload_parse_examples w user message lang i18n settings :
  let three := S754_finite false 6755399441055744 (-51) in
  let price := S754_finite false 5623870034678907 (-49) in
  let ten := S754_finite false 5629499534213120 (-49) in
  let five := S754_finite false 5629499534213120 (-50) in
  let callback :=
    {| from_user_id := user; cq_message := Some message;
       data := "pay_crypto:abc" |} in
  let current_lang :=
    match lang with Some l => l | None => DEFAULT_LANGUAGE settings end in
  let alert :=
    Answer callback (Some (gettext i18n current_lang "error_try_again" []))
      (Some true) in
  let run :=
    pay_crypto_callback_handler callback settings
      {| current_language := lang; i18n_instance := Some i18n |}
      (Some {| configured := true |}) w in
  (parse_payload "pay_crypto:3:9.99" = Ret (three, price, "subscription")
   /\ PyFloat.is_integer three = true /\ PyFloat.trunc three = 3
   /\ PyFloat.within_half_ulp price 999 100 = true)
  /\ (parse_payload "pay_crypto:10:5:traffic" = Ret (ten, five, "traffic")
      /\ PyFloat.is_integer ten = true /\ PyFloat.trunc ten = 10
      /\ PyFloat.is_integer five = true /\ PyFloat.trunc five = 5)
  /\ (is_raise (parse_payload "pay_crypto:abc") = true
      /\ run = (Ret tt, snd (surface alert w),
                [Called alert (fst (surface alert w))])
      /\ existsb is_invoice (trace_of run) = false).
Proof.
  intros three price ten five callback current_lang alert run.
  split; [|split].
  - repeat split; vm_compute; reflexivity.
  - repeat split; vm_compute; reflexivity.
  - assert (Hrun : run = (Ret tt, snd (surface alert w),
                         [Called alert (fst (surface alert w))])).
    { subst run alert callback current_lang. handler_defs.
      cbn [data cq_message i18n_instance current_language configured].
      rewrite parse_abc.
      simpl_run. handler_step; reflexivity. }
    rewrite Hrun. rewrite parse_abc. repeat split; reflexivity.
Qed.

(** The parse step raises nothing but [ValueError] and [IndexError]. *)
Lemma parse_payload_error_class payload :
  match parse_payload payload with
  | Ret _ => true
  | Raise (ValueError _) | Raise (IndexError _) => true
  | Raise _ => false
  end = true.
Proof.
  unfold parse_payload, unpack2, index, py_float.
  destruct (PyStr.split1 ":" payload) as [|tag [|fields [|x l]]];
    try reflexivity.
  cbn [rbind snd].
  destruct (PyStr.split ":" fields) as [|first [|second rest]];
    cbn [nth_error rbind]; try reflexivity;
    destruct (PyFloat.of_string first); cbn [rbind]; try reflexivity.
  destruct (PyFloat.of_string second); cbn [rbind]; try reflexivity.
  destruct rest; reflexivity.
Qed.

(** C9, at the failing payload "pay_crypto:nan:1": the parse step
    accepts it, and the handler then raises [ValueError] from
    [int(months)] before any acknowledgement or gateway call. *)
Theorem nan_quantity_raises_after_parse w user message lang i18n settings :
  let callback :=
    {| from_user_id := user; cq_message := Some message;
       data := "pay_crypto:nan:1" |} in
  is_raise (parse_payload "pay_crypto:nan:1") = false
  /\ pay_crypto_callback_handler callback settings
       {| current_language := lang; i18n_instance := Some i18n |}
       (Some {| configured := true |}) w
     = (Raise (ValueError "cannot convert float NaN to integer"), w, []).
Proof.
  intros callback. rewrite parse_nan_1. split; [reflexivity|].
  subst callback. handler_defs.
  cbn [data cq_message i18n_instance current_language configured].
  rewrite parse_nan_1. reflexivity.
Qed.

Ltac close_membership :=
  let H := fresh "Hin" in
  intros H; cbn in H;
  repeat match goal with
         | H' : _ \/ _ |- _ => destruct H' as [H'|H']
         end;
  try discriminate; try contradiction;
  match goal with
  | H' : Helped _ _ = Helped _ _ |- _ => inversion H'; subst
  end;
  do 5 eexists; split; reflexivity.

(** C6: when the update-mode display call of the handler raises, the
    send-mode display call is made exactly once, with the same text and
    the same keyboard; whatever it does, the interaction is then
    answered with no text and no alert and the handler returns. *)
Theorem display_fallback_attempted_once w callback settings i18n_data
    cryptopay_service m text kb e :
  let run := pay_crypto_callback_handler callback settings i18n_data
               cryptopay_service w in
  In (Helped (RenderSubscribeMenu m text kb) (Raise e)) (trace_of run) ->
  exists a url image r3 r4,
    trace_of run
    = [Invoiced a (Some url);
       Helped (RenderSubscribeMenu m text kb) (Raise e);
       Helped (SendMenuWithImage m text image kb) r3;
       Called (Answer callback None None) r4]
    /\ outcome_of run = Ret tt.
Proof.
  intros run. subst run. handler_defs.
  destruct (i18n_instance i18n_data) as [i|],
    (cq_message callback) as [msg|];
    try (simpl_run; repeat handler_step; close_membership).
  destruct cryptopay_service as [svc|];
    [destruct (configured svc)|];
    try (simpl_run; repeat handler_step; close_membership).
  destruct (parse_payload (data callback)) as [[[months price] mode]|err].
  - split_quantity months; simpl_run; repeat handler_step;
      close_membership.
  - destruct err; simpl_run; repeat handler_step; close_membership.
Qed.


(** ** Further properties of the menu renderer *)

(** X1: a surface call that returns ends the run, so at most one call
    succeeds per request; and the value is [True] exactly when a call
    that shows an image (media edit, caption edit or photo send) was the
    one that returned. *)
Theorem render_stops_at_first_success w message event text image_filename
    reply_markup parse_mode disable_link_preview :
  let u := update_menu_message message text image_filename reply_markup
             parse_mode disable_link_preview w in
  let r := render_menu_content event text image_filename reply_markup
             parse_mode disable_link_preview w in
  (all_suffixes stops_at_success (trace_of u) = true
   /\ outcome_of u = Ret (image_call_succeeded (trace_of u)))
  /\ (all_suffixes stops_at_success (trace_of r) = true
      /\ outcome_of r = Ret (image_call_succeeded (trace_of r))).
Proof.
  assert (Hupdate : forall msg,
    let u := update_menu_message msg text image_filename reply_markup
               parse_mode disable_link_preview w in
    all_suffixes stops_at_success (trace_of u) = true
    /\ outcome_of u = Ret (image_call_succeeded (trace_of u))).
  { intros [msg|]; destruct image_filename as [name|];
      run_cases; split; reflexivity. }
  split; [apply Hupdate|].
  destruct event as [m|q|].
  - destruct image_filename as [name|]; run_cases; split; reflexivity.
  - unfold render_menu_content.
    destruct (cq_message q) as [m|]; [apply Hupdate|].
    cbn. split; reflexivity.
  - cbn. split; reflexivity.
Qed.

(** X2: every call [update_menu_message] makes is an edit of the given
    message that carries the given text, controls and parse mode: a media
    edit with the image path of the given file name and the text as
    caption, a caption edit, or a text edit with the link-preview option
    of the request.  It never sends a message and never answers a
    query. *)
Theorem update_calls_carry_the_request w m text image_filename
    reply_markup parse_mode (disable_link_preview : bool) :
  Forall
    (fun c : SurfaceCall =>
       c = EditCaption m text reply_markup parse_mode
       \/ c = EditText m text reply_markup parse_mode
                (if disable_link_preview
                 then Some {| is_disabled := true |} else None)
       \/ exists name,
            image_filename = Some name
            /\ c = EditMedia m
                     {| media := image_path_of name; media_caption := text;
                        media_parse_mode := parse_mode |} reply_markup)
    (surface_calls
       (trace_of (update_menu_message (Some m) text image_filename
                    reply_markup parse_mode disable_link_preview w))).
Proof.
  destruct image_filename as [name|]; run_cases;
    repeat (apply Forall_cons || apply Forall_nil);
    first [ left; reflexivity
          | right; left; reflexivity
          | right; right; eexists; split; reflexivity ].
Qed.

(** X3: on a [Message] event every call [render_menu_content] makes is a
    send into the chat of that message with the given text, controls and
    parse mode: a photo send with the image path of the given file name,
    or a text send with the link-preview option of the request.  It never
    edits. *)
Theorem send_calls_carry_the_request w m text image_filename
    reply_markup parse_mode (disable_link_preview : bool) :
  Forall
    (fun c : SurfaceCall =>
       c = SendMessage (chat_id m) text reply_markup parse_mode
             (if disable_link_preview
              then Some {| is_disabled := true |} else None)
       \/ exists name,
            image_filename = Some name
            /\ c = SendPhoto (chat_id m) (image_path_of name) text
                     reply_markup parse_mode)
    (surface_calls
       (trace_of (render_menu_content (OfMessage m) text image_filename
                    reply_markup parse_mode disable_link_preview w))).
Proof.
  destruct image_filename as [name|]; run_cases;
    repeat (apply Forall_cons || apply Forall_nil);
    first [ left; reflexivity
          | right; eexists; split; reflexivity ].
Qed.

(** X4: [update_menu_message] never calls the caption edit on a message
    without a photo, and never calls the media edit unless a non-empty
    file name is given whose path is a file. *)
Theorem update_calls_need_photo_and_file w m text image_filename
    reply_markup parse_mode disable_link_preview :
  let t := trace_of (update_menu_message (Some m) text image_filename
                       reply_markup parse_mode disable_link_preview w) in
  let usable :=
    match image_filename with
    | Some name => (PyStr.truthy name && is_file (image_path_of name) w)%bool
    | None => false
    end in
  (count_calls is_edit_caption t <= if has_photo m then 2 else 0)%nat
  /\ (count_calls is_edit_media t <= if usable then 1 else 0)%nat.
Proof.
  destruct image_filename as [name|]; run_cases; try congruence;
    unfold count_calls; cbn; split; auto with arith.
Qed.

(** X5: the stages keep their order: no surface call follows a text edit
    or a text send; a media edit or a caption edit is followed only by
    caption edits and a text edit, never by a media edit or a send; a
    photo send is followed only by a text send. *)
Theorem stages_run_in_order w message event text image_filename
    reply_markup parse_mode disable_link_preview :
  all_suffixes stage_order
    (trace_of (update_menu_message message text image_filename reply_markup
                 parse_mode disable_link_preview w)) = true
  /\ all_suffixes stage_order
       (trace_of (render_menu_content event text image_filename
                    reply_markup parse_mode disable_link_preview w)) = true.
Proof.
  assert (Hupdate : forall msg,
    all_suffixes stage_order
      (trace_of (update_menu_message msg text image_filename reply_markup
                   parse_mode disable_link_preview w)) = true).
  { intros [msg|]; destruct image_filename as [name|];
      run_cases; reflexivity. }
  split; [apply Hupdate|].
  destruct event as [m|q|].
  - destruct image_filename as [name|]; run_cases; reflexivity.
  - unfold render_menu_content.
    destruct (cq_message q) as [m|]; [apply Hupdate | reflexivity].
  - reflexivity.
Qed.

(** X6: in update mode with no image name, when the caption edit of a
    message that carries a photo is rejected with a reason that holds
    "not modified" (in any letter case), this is logged at debug
    severity, the text edit is then called, and the value is [False]. *)
Theorem caption_not_modified_falls_to_text w m text reply_markup parse_mode
    (disable_link_preview : bool) reason w1 :
  let caption := EditCaption m text reply_markup parse_mode in
  let edit_text :=
    EditText m text reply_markup parse_mode
      (if disable_link_preview then Some {| is_disabled := true |}
       else None) in
  let u := update_menu_message (Some m) text None reply_markup parse_mode
             disable_link_preview w in
  has_photo m = true ->
  surface caption w = (Raise (TelegramBadRequest reason), w1) ->
  PyStr.contains "not modified" (PyStr.lower reason) = true ->
  exists r2 w2 logs,
    surface edit_text w1 = (r2, w2)
    /\ trace_of u
       = Called caption (Raise (TelegramBadRequest reason))
         :: Logged DEBUG "Menu caption not modified for message %s"
              [PyStr.of_Z (message_id m)]
         :: Called edit_text r2
         :: logs
    /\ surface_calls logs = []
    /\ outcome_of u = Ret false.
Proof.
  intros caption edit_text u Hphoto Hcaption Hreason.
  subst u caption edit_text. run_defs; cbn.
  rewrite Hphoto; cbn. rewrite Hcaption; cbn. rewrite Hreason; cbn.
  repeat run_step; do 3 eexists; repeat split; reflexivity.
Qed.

(** X7: in update mode every call that raises is followed at once by a
    log record; a surface rejection of a media or caption edit is logged
    below error severity, and every exception that is not a surface
    rejection is logged at error severity. *)
Theorem update_failure_severity w message text image_filename reply_markup
    parse_mode disable_link_preview :
  all_suffixes failure_severity
    (trace_of (update_menu_message message text image_filename reply_markup
                 parse_mode disable_link_preview w)) = true.
Proof.
  destruct message as [message|], image_filename as [name|];
    run_cases; use_exn_class; reflexivity.
Qed.

(** ** Further properties of the payment handler *)

(** X8: when the translation object or the message of the query is
    missing, or else when the payment service is missing or not
    configured, the handler's whole run is one alert (the text
    "error_occurred_try_again", respectively
    "payment_service_unavailable_alert", looked up when a translation
    object is there): the payload is not parsed and no invoice is
    created. *)
Theorem handler_unready_single_alert w callback settings i18n_data
    cryptopay_service :
  let current_lang :=
    match current_language i18n_data with
    | Some l => l
    | None => DEFAULT_LANGUAGE settings
    end in
  let get_text key :=
    match i18n_instance i18n_data with
    | Some i => gettext i current_lang key []
    | None => key
    end in
  let context_ok :=
    match i18n_instance i18n_data, cq_message callback with
    | Some _, Some _ => true
    | _, _ => false
    end in
  let service_ok :=
    match cryptopay_service with
    | Some svc => configured svc
    | None => false
    end in
  let alert :=
    Answer callback
      (Some (get_text (if context_ok
                       then "payment_service_unavailable_alert"
                       else "error_occurred_try_again")))
      (Some true) in
  (context_ok && service_ok)%bool = false ->
  pay_crypto_callback_handler callback settings i18n_data
    cryptopay_service w
  = (Ret tt, snd (surface alert w), [Called alert (fst (surface alert w))]).
Proof.
  intros current_lang get_text context_ok service_ok alert.
  subst alert service_ok context_ok get_text current_lang.
  handler_defs.
  destruct (i18n_instance i18n_data) as [i|],
    (cq_message callback) as [msg|];
    try (intros _; simpl_run; handler_step; reflexivity).
  destruct cryptopay_service as [svc|]; cbn [andb].
  - destruct (configured svc); [discriminate|].
    intros _; simpl_run; handler_step; reflexivity.
  - intros _; simpl_run; handler_step; reflexivity.
Qed.

Ltac split_membership :=
  let H := fresh "Hin" in
  intros H; cbn in H;
  repeat match goal with
         | H' : _ \/ _ |- _ => destruct H' as [H'|H']
         end;
  try discriminate; try contradiction.

(** Every case of a run of the handler, with the parse errors that cannot
    occur left out. *)
Ltac handler_cases callback i18n_data cryptopay_service :=
  handler_defs;
  destruct (i18n_instance i18n_data) as [?i|] eqn:?,
    (cq_message callback) as [?msg|] eqn:?;
    [ destruct cryptopay_service as [?svc|];
      [ destruct (configured svc) eqn:?;
        [ let Hparse := fresh "Hparse" in
          let Hclass := fresh "Hclass" in
          let months := fresh "months" in
          pose proof (parse_payload_error_class (data callback)) as Hclass;
          destruct (parse_payload (data callback))
            as [[[months ?price] ?mode]|[]] eqn:Hparse;
          try discriminate Hclass; clear Hclass;
          [ split_quantity months | | ]
        | ]
      | ]
    | | | ];
  simpl_run; repeat handler_step.

(** X9: when the gateway returns no URL ([None] or an empty string), the
    rest of the run is one alert with the text "error_payment_gateway":
    no display helper is called and the handler returns. *)
Theorem no_url_single_gateway_alert w callback settings i18n_data
    cryptopay_service a r :
  let run := pay_crypto_callback_handler callback settings i18n_data
               cryptopay_service w in
  let current_lang :=
    match current_language i18n_data with
    | Some l => l
    | None => DEFAULT_LANGUAGE settings
    end in
  In (Invoiced a r) (trace_of run) ->
  url_truthy r = false ->
  exists i r',
    i18n_instance i18n_data = Some i
    /\ trace_of run
       = [Invoiced a r;
          Called (Answer callback
                    (Some (gettext i current_lang "error_payment_gateway" []))
                    (Some true)) r']
    /\ outcome_of run = Ret tt.
Proof.
  intros run current_lang. subst run current_lang.
  handler_cases callback i18n_data cryptopay_service;
    split_membership;
    match goal with
    | H' : Invoiced _ _ = Invoiced _ _ |- _ => inversion H'; subst
    end;
    cbn; intros Hurl; try congruence;
    do 2 eexists; repeat split; reflexivity.
Qed.

(** X10: when the update-mode display call returns, the send-mode display
    is not attempted: the run is the invoice creation, that one display
    call and the answer with no text and no alert. *)
Theorem display_success_no_fallback w callback settings i18n_data
    cryptopay_service m text kb :
  let run := pay_crypto_callback_handler callback settings i18n_data
               cryptopay_service w in
  In (Helped (RenderSubscribeMenu m text kb) (Ret tt)) (trace_of run) ->
  exists a url r4,
    trace_of run
    = [Invoiced a (Some url);
       Helped (RenderSubscribeMenu m text kb) (Ret tt);
       Called (Answer callback None None) r4]
    /\ cq_message callback = Some m
    /\ outcome_of run = Ret tt.
Proof.
  intros run. subst run.
  handler_cases callback i18n_data cryptopay_service;
    split_membership;
    match goal with
    | H' : Helped _ _ = Helped _ _ |- _ => inversion H'; subst
    end;
    do 3 eexists; repeat split; reflexivity.
Qed.

(** X11: a run of the handler that returns answers the query exactly
    once, as its last event and as its only call of the chat surface; a
    run that raises makes no call of the chat surface at all. *)
Theorem handler_answers_exactly_once w callback settings i18n_data
    cryptopay_service :
  let run := pay_crypto_callback_handler callback settings i18n_data
               cryptopay_service w in
  match outcome_of run with
  | Ret _ =>
      exists pre text alert r,
        trace_of run = (pre ++ [Called (Answer callback text alert) r])%list
        /\ surface_calls pre = []
  | Raise _ => surface_calls (trace_of run) = []
  end.
Proof.
  intros run. subst run.
  handler_cases callback i18n_data cryptopay_service;
    first
      [ reflexivity
      | exists (@nil Event); do 3 eexists; split; reflexivity
      | eexists (_ :: nil); do 3 eexists; split; reflexivity
      | eexists (_ :: _ :: nil); do 3 eexists; split; reflexivity
      | eexists (_ :: _ :: _ :: nil); do 3 eexists; split; reflexivity ].
Qed.

(** X12: the handler returns in every run but two kinds: those in which
    the quantity parsed to an infinity or to a NaN, where [int(months)]
    raises, and those in which [create_invoice] itself raises, whose
    exception leaves the handler as it is, right after the gateway
    call. *)
Theorem handler_raises_only_on_non_finite_quantity w callback settings
    i18n_data cryptopay_service :
  let run := pay_crypto_callback_handler callback settings i18n_data
               cryptopay_service w in
  outcome_of run = Ret tt
  \/ (exists months price mode,
        parse_payload (data callback) = Ret (months, price, mode)
        /\ PyFloat.is_finite months = false)
  \/ (exists a e,
        trace_of run = [InvoiceRaised a e] /\ outcome_of run = Raise e).
Proof.
  intros run. subst run.
  handler_cases callback i18n_data cryptopay_service;
    first
      [ left; reflexivity
      | right; left; do 3 eexists; split; reflexivity
      | right; right; do 2 eexists; split; reflexivity ].
Qed.

(** X13: when the handler raises, nothing was displayed or answered, and
    one of three things has happened: nothing at all; a gateway call that
    raised, whose exception is the one that leaves the handler; or an
    invoice created for a "traffic" purchase with a quantity that is an
    infinity or a NaN, for which the gateway returned its URL. *)
Theorem handler_raise_after_invoice w callback settings i18n_data
    cryptopay_service :
  let run := pay_crypto_callback_handler callback settings i18n_data
               cryptopay_service w in
  is_raise (outcome_of run) = true ->
  trace_of run = []
  \/ (exists a e,
        trace_of run = [InvoiceRaised a e] /\ outcome_of run = Raise e)
  \/ (exists a url,
        trace_of run = [Invoiced a (Some url)]
        /\ inv_sale_mode a = "traffic"
        /\ PyFloat.is_finite (inv_months a) = false
        /\ PyStr.truthy url = true).
Proof.
  intros run. subst run.
  handler_cases callback i18n_data cryptopay_service;
    intros Hraise; try discriminate Hraise;
    first
      [ left; reflexivity
      | right; left; do 2 eexists; split; reflexivity
      | right; right; do 2 eexists;
        split; [reflexivity|];
        split; [apply String.eqb_eq; assumption|];
        split; [reflexivity | assumption] ].
Qed.

(** X14: one run of the handler creates at most one invoice and makes at
    most one call of each display helper; a display helper is called only
    after the invoice creation returned a non-empty URL. *)
Theorem handler_single_invoice w callback settings i18n_data
    cryptopay_service :
  let t := trace_of (pay_crypto_callback_handler callback settings
                       i18n_data cryptopay_service w) in
  (count_events is_invoice t <= 1)%nat
  /\ (count_events is_render_help t <= 1)%nat
  /\ (count_events is_send_help t <= 1)%nat
  /\ helpers_follow_invoice t = true.
Proof.
  intros t. subst t.
  handler_cases callback i18n_data cryptopay_service;
    unfold count_events; cbn;
    repeat match goal with
           | H : PyStr.truthy _ = _ |- _ => rewrite H
           end;
    repeat split; auto with arith.
Qed.

(** [s.split(":", 1)] cuts at the colon that follows a tag without
    colon. *)
Lemma split1_cut tag rest :
  PyStr.contains ":" tag = false ->
  PyStr.split1 ":" (tag ++ String ":" rest) = [tag; rest].
Proof.
  induction tag as [|c tag IH]; intros Hno.
  - reflexivity.
  - cbn in Hno. apply orb_false_iff in Hno. destruct Hno as [Hc Htag].
    assert (Hc' : Ascii.eqb c ":" = false).
    { rewrite Ascii.eqb_sym. destruct tag; cbn in Hc;
        rewrite andb_true_r in Hc; exact Hc. }
    cbn. rewrite Hc'.
    change ((fix append (s1 s2 : string) {struct s1} : string :=
               match s1 with
               | EmptyString => s2
               | String c0 s1' => String c0 (append s1' s2)
               end) tag (String ":" rest))
      with (tag ++ String ":" rest).
    rewrite (IH Htag). reflexivity.
Qed.

(** X16: the parse step does not look at the mode tag: what stands before
    the first colon has no effect on the result. *)
Theorem parse_ignores_mode_tag tag rest :
  PyStr.contains ":" tag = false ->
  parse_payload (tag ++ String ":" rest)
  = parse_payload ("pay_crypto" ++ String ":" rest).
Proof.
  intros Htag. unfold parse_payload.
  rewrite (split1_cut tag rest Htag).
  rewrite (split1_cut "pay_crypto" rest eq_refl).
  reflexivity.
Qed.

(** X15: the parse step raises nothing but [ValueError] and
    [IndexError], the two classes its [except] clause catches: no failure
    of the parse escapes the handler. *)
Theorem parse_step_raises_only_caught_errors payload e :
  parse_payload payload = Raise e ->
  exists msg, e = ValueError msg \/ e = IndexError msg.
Proof.
  intros Hraise.
  pose proof (parse_payload_error_class payload) as Hclass.
  rewrite Hraise in Hclass.
  destruct e as [msg|msg|msg|msg|msg]; try discriminate Hclass;
    exists msg; [left | right]; reflexivity.
Qed.

End Bot.

(** ** Checks of the float model

    Known values of [float(s)]: 0.1, a tie that rounds to even, overflow
    to infinity, the least subnormal and the half of it that rounds to
    zero, digit grouping, and strings that [float] refuses. *)
Lemma float_of_string_known_values :
  PyFloat.of_string "0.1" = Some (S754_finite false 7205759403792794 (-56))
  /\ PyFloat.of_string "9007199254740993"
     = Some (S754_finite false 4503599627370496 1)
  /\ PyFloat.of_string "1e400" = Some (S754_infinity false)
  /\ PyFloat.of_string "1.7976931348623157e308"
     = Some (S754_finite false 9007199254740991 971)
  /\ PyFloat.of_string "5e-324" = Some (S754_finite false 1 (-1074))
  /\ PyFloat.of_string "2.4703282292062327e-324" = Some (S754_zero false)
  /\ PyFloat.of_string " -1_000.5E-1 "
     = Some (S754_finite true 7040392854975283 (-46))
  /\ PyFloat.of_string "-Infinity" = Some (S754_infinity true)
  /\ PyFloat.of_string "NaN" = Some S754_nan
  /\ PyFloat.of_string "1e" = None
  /\ PyFloat.of_string "1_" = None
  /\ PyFloat.of_string "0x10" = None
  /\ PyFloat.of_string "" = None.
Proof. repeat split; vm_compute; reflexivity. Qed.

(** ** Runs on the scripted world *)

(** C3, as stated, fails: a text edit rejected with a reason that holds
    "not modified" but not "message is not modified" is logged at error
    severity. *)
Lemma text_edit_not_modified_logged_as_error :
  PyStr.contains "not modified"
    (PyStr.lower "Bad Request: content NOT modified") = true
  /\ trace_of
       (update_menu_message Fake fake_surface fake_is_file
          (Some text_message) "Menu" None None html true
          (fake_world
             [Raise (TelegramBadRequest "Bad Request: content NOT modified")]
             [] []))
     = [Called (EditText text_message "Menu" None html no_preview)
          (Raise (TelegramBadRequest "Bad Request: content NOT modified"));
        Logged ERROR "Failed to edit menu text: %s"
          ["Bad Request: content NOT modified"]].
Proof. split; vm_compute; reflexivity. Qed.

(** A run of the amended C3: the rejection reason holds "message is not
    modified" in mixed case. *)
Lemma text_edit_message_not_modified_benign_witness :
  (trace_of
     (update_menu_message Fake fake_surface fake_is_file
        (Some text_message) "Menu" None None html true
        (fake_world
           [Raise (TelegramBadRequest "Bad Request: Message is not modified")]
           [] []))
   = ([] ++ Called (EditText text_message "Menu" None html no_preview)
              (Raise (TelegramBadRequest
                        "Bad Request: Message is not modified"))
            :: [Logged DEBUG "Menu text not modified for message %s" ["7"]])%list
   /\ is_edit_text (EditText text_message "Menu" None html no_preview) = true
   /\ PyStr.contains "message is not modified"
        (PyStr.lower "Bad Request: Message is not modified") = true)
  /\ (existsb is_error_log
        [Logged DEBUG "Menu text not modified for message %s" ["7"]] = false
      /\ surface_calls
           [Logged DEBUG "Menu text not modified for message %s" ["7"]] = []
      /\ outcome_of
           (update_menu_message Fake fake_surface fake_is_file
              (Some text_message) "Menu" None None html true
              (fake_world
                 [Raise (TelegramBadRequest
                           "Bad Request: Message is not modified")]
                 [] []))
         = Ret false).
Proof.
  split.
  - repeat split; vm_compute; reflexivity.
  - apply (text_edit_message_not_modified_benign Fake fake_surface
             fake_is_file
             (fake_world
                [Raise (TelegramBadRequest
                          "Bad Request: Message is not modified")] [] [])
             (Some text_message) "Menu" None None html true []
             (EditText text_message "Menu" None html no_preview)
             "Bad Request: Message is not modified").
    + vm_compute; reflexivity.
    + reflexivity.
    + vm_compute; reflexivity.
Defined.


(** A run of C5: the photo send and the text send both fail. *)
Lemma send_mode_single_text_fallback_witness :
  (PyStr.truthy "menu.png" = true
   /\ fake_is_file (image_path_of "menu.png")
        (fake_world [Raise (OtherException "connection reset");
                     Raise (OtherException "connection reset")]
           [menu_png_path] []) = true
   /\ fake_surface
        (SendPhoto 42 (image_path_of "menu.png") "Menu" None html)
        (fake_world [Raise (OtherException "connection reset");
                     Raise (OtherException "connection reset")]
           [menu_png_path] [])
      = (Raise (OtherException "connection reset"),
         fake_world [Raise (OtherException "connection reset")]
           [menu_png_path] []))
  /\ exists r2 w2,
       fake_surface (SendMessage 42 "Menu" None html no_preview)
         (fake_world [Raise (OtherException "connection reset")]
            [menu_png_path] []) = (r2, w2)
       /\ outcome_of
            (render_menu_content Fake fake_surface fake_is_file
               (OfMessage text_message) "Menu" (Some "menu.png") None html
               true
               (fake_world [Raise (OtherException "connection reset");
                            Raise (OtherException "connection reset")]
                  [menu_png_path] []))
          = Ret false
       /\ world_of
            (render_menu_content Fake fake_surface fake_is_file
               (OfMessage text_message) "Menu" (Some "menu.png") None html
               true
               (fake_world [Raise (OtherException "connection reset");
                            Raise (OtherException "connection reset")]
                  [menu_png_path] []))
          = w2
       /\ surface_events
            (trace_of
               (render_menu_content Fake fake_surface fake_is_file
                  (OfMessage text_message) "Menu" (Some "menu.png") None
                  html true
                  (fake_world [Raise (OtherException "connection reset");
                               Raise (OtherException "connection reset")]
                     [menu_png_path] [])))
          = [Called (SendPhoto 42 (image_path_of "menu.png") "Menu" None html)
               (Raise (OtherException "connection reset"));
             Called (SendMessage 42 "Menu" None html no_preview) r2].
Proof.
  split.
  - repeat split; vm_compute; reflexivity.
  - exact (send_mode_single_text_fallback Fake fake_surface fake_is_file
             (fake_world [Raise (OtherException "connection reset");
                          Raise (OtherException "connection reset")]
                [menu_png_path] [])
             text_message "Menu" "menu.png" None html true
             (Raise (OtherException "connection reset"))
             (fake_world [Raise (OtherException "connection reset")]
                [menu_png_path] [])
             eq_refl eq_refl eq_refl).
Defined.

(** C7, as stated, fails: after a rejected media edit on a message that
    carries a photo, a caption edit that fails is made a second time. *)
Lemma caption_edit_invoked_twice :
  count_calls is_edit_caption
    (trace_of
       (update_menu_message Fake fake_surface fake_is_file
          (Some photo_message) "Menu" (Some "menu.png") None html true
          (fake_world
             [Raise (TelegramBadRequest "Bad Request: wrong file identifier");
              Raise (TelegramBadRequest "Bad Request: message is not modified");
              Raise (TelegramBadRequest "Bad Request: message is not modified")]
             [menu_png_path] [])))
  = 2%nat
  /\ surface_calls
       (trace_of
          (update_menu_message Fake fake_surface fake_is_file
             (Some photo_message) "Menu" (Some "menu.png") None html true
             (fake_world
                [Raise (TelegramBadRequest "Bad Request: wrong file identifier");
                 Raise (TelegramBadRequest "Bad Request: message is not modified");
                 Raise (TelegramBadRequest "Bad Request: message is not modified")]
                [menu_png_path] [])))
     = [EditMedia photo_message
          {| media := menu_png_path; media_caption := "Menu";
             media_parse_mode := html |} None;
        EditCaption photo_message "Menu" None html;
        EditCaption photo_message "Menu" None html;
        EditText photo_message "Menu" None html no_preview].
Proof. split; vm_compute; reflexivity. Qed.

(** C8, as stated, fails: after a media edit that raises a transport
    error on a message that carries a photo, the next call is the caption
    edit; it succeeds here, the value is [True] and no text edit is made. *)
Lemma media_transport_error_then_caption :
  surface_calls
    (trace_of
       (update_menu_message Fake fake_surface fake_is_file
          (Some photo_message) "Menu" (Some "menu.png") None html true
          (fake_world [Raise (OtherException "timeout")]
             [menu_png_path] [])))
  = [EditMedia photo_message
       {| media := menu_png_path; media_caption := "Menu";
          media_parse_mode := html |} None;
     EditCaption photo_message "Menu" None html]
  /\ outcome_of
       (update_menu_message Fake fake_surface fake_is_file
          (Some photo_message) "Menu" (Some "menu.png") None html true
          (fake_world [Raise (OtherException "timeout")]
             [menu_png_path] []))
     = Ret true.
Proof. split; vm_compute; reflexivity. Qed.

(** A run of the amended C8: a timeout of the media edit on a message
    that carries a photo. *)
Lemma media_error_falls_to_next_stage_witness :
  (PyStr.truthy "menu.png" = true
   /\ fake_is_file (image_path_of "menu.png")
        (fake_world [Raise (OtherException "timeout")] [menu_png_path] [])
      = true
   /\ fake_surface
        (EditMedia photo_message
           {| media := image_path_of "menu.png"; media_caption := "Menu";
              media_parse_mode := html |} None)
        (fake_world [Raise (OtherException "timeout")] [menu_png_path] [])
      = (Raise (OtherException "timeout"),
         fake_world [] [menu_png_path] [])
   /\ is_bad_request (OtherException "timeout") = false)
  /\ exists tail,
       trace_of
         (update_menu_message Fake fake_surface fake_is_file
            (Some photo_message) "Menu" (Some "menu.png") None html true
            (fake_world [Raise (OtherException "timeout")]
               [menu_png_path] []))
       = Called
           (EditMedia photo_message
              {| media := image_path_of "menu.png"; media_caption := "Menu";
                 media_parse_mode := html |} None)
           (Raise (OtherException "timeout"))
         :: Logged ERROR "Unexpected error while editing menu media %s: %s"
              [image_path_of "menu.png"; "timeout"]
         :: tail
       /\ hd_error (surface_calls tail)
          = Some (EditCaption photo_message "Menu" None html).
Proof.
  split.
  - repeat split; vm_compute; reflexivity.
  - exact (media_error_falls_to_next_stage Fake fake_surface fake_is_file
             (fake_world [Raise (OtherException "timeout")]
                [menu_png_path] [])
             photo_message "Menu" "menu.png" None html true
             (OtherException "timeout") (fake_world [] [menu_png_path] [])
             eq_refl eq_refl eq_refl eq_refl).
Defined.

(** A run of C6: both display calls raise. *)
Lemma display_fallback_attempted_once_witness :
  In (Helped (RenderSubscribeMenu text_message "payment_link_message"
                (Some sample_keyboard))
        (Raise (OtherException "render failed")))
     (trace_of
        (pay_crypto_callback_handler Fake fake_surface fake_create_invoice
           fake_helper fake_menu_image_if_exists fake_keyboard fake_format
           fake_format (sample_callback "pay_crypto:3:9.99") sample_settings
           sample_i18n_data (Some {| configured := true |})
           (fake_world [Raise (OtherException "render failed");
                        Raise (OtherException "send failed")]
              [] [Some "https://pay.example/inv1"])))
  /\ exists a url image r3 r4,
       trace_of
         (pay_crypto_callback_handler Fake fake_surface fake_create_invoice
            fake_helper fake_menu_image_if_exists fake_keyboard fake_format
            fake_format (sample_callback "pay_crypto:3:9.99")
            sample_settings sample_i18n_data
            (Some {| configured := true |})
            (fake_world [Raise (OtherException "render failed");
                         Raise (OtherException "send failed")]
               [] [Some "https://pay.example/inv1"]))
       = [Invoiced a (Some url);
          Helped (RenderSubscribeMenu text_message "payment_link_message"
                    (Some sample_keyboard))
            (Raise (OtherException "render failed"));
          Helped (SendMenuWithImage text_message "payment_link_message"
                    image (Some sample_keyboard)) r3;
          Called (Answer (sample_callback "pay_crypto:3:9.99") None None) r4]
       /\ outcome_of
            (pay_crypto_callback_handler Fake fake_surface
               fake_create_invoice fake_helper fake_menu_image_if_exists
               fake_keyboard fake_format fake_format
               (sample_callback "pay_crypto:3:9.99") sample_settings
               sample_i18n_data (Some {| configured := true |})
               (fake_world [Raise (OtherException "render failed");
                            Raise (OtherException "send failed")]
                  [] [Some "https://pay.example/inv1"]))
          = Ret tt.
Proof.
  assert (Hin :
    In (Helped (RenderSubscribeMenu text_message "payment_link_message"
                  (Some sample_keyboard))
          (Raise (OtherException "render failed")))
       (trace_of
          (pay_crypto_callback_handler Fake fake_surface fake_create_invoice
             fake_helper fake_menu_image_if_exists fake_keyboard fake_format
             fake_format (sample_callback "pay_crypto:3:9.99")
             sample_settings sample_i18n_data
             (Some {| configured := true |})
             (fake_world [Raise (OtherException "render failed");
                          Raise (OtherException "send failed")]
                [] [Some "https://pay.example/inv1"])))).
  { vm_compute. right. left. reflexivity. }
  split; [exact Hin|].
  exact (display_fallback_attempted_once Fake fake_surface
           fake_create_invoice fake_helper fake_menu_image_if_exists
           fake_keyboard fake_format fake_format _ _ _ _ _ _ _ _ _ Hin).
Defined.

(** ** Further runs on the scripted world *)

(** A run of X6: the caption edit is rejected as not modified, the text
    edit then succeeds. *)
Lemma caption_not_modified_falls_to_text_witness :
  (has_photo photo_message = true
   /\ fake_surface (EditCaption photo_message "Menu" None html)
        (fake_world
           [Raise (TelegramBadRequest "Bad Request: message is not modified")]
           [] [])
      = (Raise (TelegramBadRequest "Bad Request: message is not modified"),
         fake_world [] [] [])
   /\ PyStr.contains "not modified"
        (PyStr.lower "Bad Request: message is not modified") = true)
  /\ exists r2 w2 logs,
       fake_surface (EditText photo_message "Menu" None html no_preview)
         (fake_world [] [] []) = (r2, w2)
       /\ trace_of
            (update_menu_message Fake fake_surface fake_is_file
               (Some photo_message) "Menu" None None html true
               (fake_world
                  [Raise (TelegramBadRequest
                            "Bad Request: message is not modified")]
                  [] []))
          = Called (EditCaption photo_message "Menu" None html)
              (Raise (TelegramBadRequest
                        "Bad Request: message is not modified"))
            :: Logged DEBUG "Menu caption not modified for message %s"
                 [PyStr.of_Z (message_id photo_message)]
            :: Called (EditText photo_message "Menu" None html no_preview) r2
            :: logs
       /\ surface_calls logs = []
       /\ outcome_of
            (update_menu_message Fake fake_surface fake_is_file
               (Some photo_message) "Menu" None None html true
               (fake_world
                  [Raise (TelegramBadRequest
                            "Bad Request: message is not modified")]
                  [] []))
          = Ret false.
Proof.
  split.
  - repeat split; vm_compute; reflexivity.
  - exact (caption_not_modified_falls_to_text Fake fake_surface fake_is_file
             (fake_world
                [Raise (TelegramBadRequest
                          "Bad Request: message is not modified")] [] [])
             photo_message "Menu" None html true
             "Bad Request: message is not modified" (fake_world [] [] [])
             eq_refl eq_refl eq_refl).
Defined.

(** A run of X8: no payment service is given. *)
Lemma handler_unready_single_alert_witness :
  (true && false)%bool = false
  /\ pay_crypto_callback_handler Fake fake_surface fake_create_invoice
       fake_helper fake_menu_image_if_exists fake_keyboard fake_format
       fake_format (sample_callback "pay_crypto:3:9.99") sample_settings
       sample_i18n_data None (fake_world [] [] [Some sample_url])
     = (Ret tt, fake_world [] [] [Some sample_url],
        [Called (Answer (sample_callback "pay_crypto:3:9.99")
                   (Some "payment_service_unavailable_alert") (Some true))
           (Ret tt)]).
Proof.
  split; [reflexivity|].
  exact (handler_unready_single_alert Fake fake_surface fake_create_invoice
           fake_helper fake_menu_image_if_exists fake_keyboard fake_format
           fake_format (fake_world [] [] [Some sample_url])
           (sample_callback "pay_crypto:3:9.99") sample_settings
           sample_i18n_data None eq_refl).
Defined.

(** A run of X9: the gateway returns [None]. *)
Lemma no_url_single_gateway_alert_witness :
  (In (Invoiced sample_invoice_args None)
      (trace_of
         (pay_crypto_callback_handler Fake fake_surface fake_create_invoice
            fake_helper fake_menu_image_if_exists fake_keyboard fake_format
            fake_format (sample_callback "pay_crypto:3:9.99")
            sample_settings sample_i18n_data
            (Some {| configured := true |}) (fake_world [] [] [None])))
   /\ url_truthy None = false)
  /\ exists i r',
       i18n_instance sample_i18n_data = Some i
       /\ trace_of
            (pay_crypto_callback_handler Fake fake_surface
               fake_create_invoice fake_helper fake_menu_image_if_exists
               fake_keyboard fake_format fake_format
               (sample_callback "pay_crypto:3:9.99") sample_settings
               sample_i18n_data (Some {| configured := true |})
               (fake_world [] [] [None]))
          = [Invoiced sample_invoice_args None;
             Called (Answer (sample_callback "pay_crypto:3:9.99")
                       (Some (gettext i "ru" "error_payment_gateway" []))
                       (Some true)) r']
       /\ outcome_of
            (pay_crypto_callback_handler Fake fake_surface
               fake_create_invoice fake_helper fake_menu_image_if_exists
               fake_keyboard fake_format fake_format
               (sample_callback "pay_crypto:3:9.99") sample_settings
               sample_i18n_data (Some {| configured := true |})
               (fake_world [] [] [None]))
          = Ret tt.
Proof.
  assert (Hin :
    In (Invoiced sample_invoice_args None)
       (trace_of
          (pay_crypto_callback_handler Fake fake_surface fake_create_invoice
             fake_helper fake_menu_image_if_exists fake_keyboard fake_format
             fake_format (sample_callback "pay_crypto:3:9.99")
             sample_settings sample_i18n_data
             (Some {| configured := true |}) (fake_world [] [] [None])))).
  { vm_compute. left. reflexivity. }
  split; [split; [exact Hin | reflexivity]|].
  exact (no_url_single_gateway_alert Fake fake_surface fake_create_invoice
           fake_helper fake_menu_image_if_exists fake_keyboard fake_format
           fake_format _ _ _ _ _ _ _ Hin eq_refl).
Defined.

(** A run of X10: the update-mode display succeeds. *)
Lemma display_success_no_fallback_witness :
  In (Helped (RenderSubscribeMenu text_message "payment_link_message"
                (Some sample_keyboard)) (Ret tt))
     (trace_of
        (pay_crypto_callback_handler Fake fake_surface fake_create_invoice
           fake_helper fake_menu_image_if_exists fake_keyboard fake_format
           fake_format (sample_callback "pay_crypto:3:9.99") sample_settings
           sample_i18n_data (Some {| configured := true |})
           (fake_world [] [] [Some sample_url])))
  /\ exists a url r4,
       trace_of
         (pay_crypto_callback_handler Fake fake_surface fake_create_invoice
            fake_helper fake_menu_image_if_exists fake_keyboard fake_format
            fake_format (sample_callback "pay_crypto:3:9.99")
            sample_settings sample_i18n_data
            (Some {| configured := true |})
            (fake_world [] [] [Some sample_url]))
       = [Invoiced a (Some url);
          Helped (RenderSubscribeMenu text_message "payment_link_message"
                    (Some sample_keyboard)) (Ret tt);
          Called (Answer (sample_callback "pay_crypto:3:9.99") None None) r4]
       /\ cq_message (sample_callback "pay_crypto:3:9.99")
          = Some text_message
       /\ outcome_of
            (pay_crypto_callback_handler Fake fake_surface
               fake_create_invoice fake_helper fake_menu_image_if_exists
               fake_keyboard fake_format fake_format
               (sample_callback "pay_crypto:3:9.99") sample_settings
               sample_i18n_data (Some {| configured := true |})
               (fake_world [] [] [Some sample_url]))
          = Ret tt.
Proof.
  assert (Hin :
    In (Helped (RenderSubscribeMenu text_message "payment_link_message"
                  (Some sample_keyboard)) (Ret tt))
       (trace_of
          (pay_crypto_callback_handler Fake fake_surface fake_create_invoice
             fake_helper fake_menu_image_if_exists fake_keyboard fake_format
             fake_format (sample_callback "pay_crypto:3:9.99")
             sample_settings sample_i18n_data
             (Some {| configured := true |})
             (fake_world [] [] [Some sample_url])))).
  { vm_compute. right. left. reflexivity. }
  split; [exact Hin|].
  exact (display_success_no_fallback Fake fake_surface fake_create_invoice
           fake_helper fake_menu_image_if_exists fake_keyboard fake_format
           fake_format _ _ _ _ _ _ _ _ Hin).
Defined.

(** A run of X13: a traffic purchase of NaN units, for which the gateway
    returns a URL. *)
Lemma handler_raise_after_invoice_witness :
  is_raise
    (outcome_of
       (pay_crypto_callback_handler Fake fake_surface fake_create_invoice
          fake_helper fake_menu_image_if_exists fake_keyboard fake_format
          fake_format (sample_callback "pay_crypto:nan:1:traffic")
          sample_settings sample_i18n_data (Some {| configured := true |})
          (fake_world [] [] [Some sample_url]))) = true
  /\ (trace_of
        (pay_crypto_callback_handler Fake fake_surface fake_create_invoice
           fake_helper fake_menu_image_if_exists fake_keyboard fake_format
           fake_format (sample_callback "pay_crypto:nan:1:traffic")
           sample_settings sample_i18n_data (Some {| configured := true |})
           (fake_world [] [] [Some sample_url])) = []
      \/ (exists a e,
            trace_of
              (pay_crypto_callback_handler Fake fake_surface
                 fake_create_invoice fake_helper fake_menu_image_if_exists
                 fake_keyboard fake_format fake_format
                 (sample_callback "pay_crypto:nan:1:traffic")
                 sample_settings sample_i18n_data
                 (Some {| configured := true |})
                 (fake_world [] [] [Some sample_url]))
            = [InvoiceRaised a e]
            /\ outcome_of
                 (pay_crypto_callback_handler Fake fake_surface
                    fake_create_invoice fake_helper
                    fake_menu_image_if_exists fake_keyboard fake_format
                    fake_format (sample_callback "pay_crypto:nan:1:traffic")
                    sample_settings sample_i18n_data
                    (Some {| configured := true |})
                    (fake_world [] [] [Some sample_url]))
               = Raise e)
      \/ exists a url,
           trace_of
             (pay_crypto_callback_handler Fake fake_surface
                fake_create_invoice fake_helper fake_menu_image_if_exists
                fake_keyboard fake_format fake_format
                (sample_callback "pay_crypto:nan:1:traffic")
                sample_settings sample_i18n_data
                (Some {| configured := true |})
                (fake_world [] [] [Some sample_url]))
           = [Invoiced a (Some url)]
           /\ inv_sale_mode a = "traffic"
           /\ PyFloat.is_finite (inv_months a) = false
           /\ PyStr.truthy url = true).
Proof.
  assert (Hraise :
    is_raise
      (outcome_of
         (pay_crypto_callback_handler Fake fake_surface fake_create_invoice
            fake_helper fake_menu_image_if_exists fake_keyboard fake_format
            fake_format (sample_callback "pay_crypto:nan:1:traffic")
            sample_settings sample_i18n_data
            (Some {| configured := true |})
            (fake_world [] [] [Some sample_url]))) = true).
  { vm_compute. reflexivity. }
  split; [exact Hraise|].
  exact (handler_raise_after_invoice Fake fake_surface fake_create_invoice
           fake_helper fake_menu_image_if_exists fake_keyboard fake_format
           fake_format _ _ _ _ _ Hraise).
Defined.

(** The run of X13 in full: the invoice is created with a NaN quantity and
    the handler then raises. *)
Lemma nan_traffic_invoice_then_raise :
  pay_crypto_callback_handler Fake fake_surface fake_create_invoice
    fake_helper fake_menu_image_if_exists fake_keyboard fake_format
    fake_format (sample_callback "pay_crypto:nan:1:traffic")
    sample_settings sample_i18n_data (Some {| configured := true |})
    (fake_world [] [] [Some sample_url])
  = (Raise (ValueError "cannot convert float NaN to integer"),
     fake_world [] [] [],
     [Invoiced
        {| inv_user_id := 1001;
           inv_months := S754_nan;
           inv_amount := S754_finite false 4503599627370496 (-52);
           inv_description := "payment_description_traffic";
           inv_sale_mode := "traffic" |} (Some sample_url)]).
Proof. vm_compute. reflexivity. Qed.

(** A run of X15: the payload "pay_crypto:abc". *)
Lemma parse_step_raises_only_caught_errors_witness :
  parse_payload "pay_crypto:abc"
  = Raise (ValueError "could not convert string to float")
  /\ exists msg,
       ValueError "could not convert string to float" = ValueError msg
       \/ ValueError "could not convert string to float" = IndexError msg.
Proof.
  assert (Hraise : parse_payload "pay_crypto:abc"
                   = Raise (ValueError "could not convert string to float")).
  { vm_compute. reflexivity. }
  split; [exact Hraise|].
  exact (parse_step_raises_only_caught_errors "pay_crypto:abc" _ Hraise).
Defined.

(** A run of X16: another tag before the same fields. *)
Lemma parse_ignores_mode_tag_witness :
  PyStr.contains ":" "renew_plan" = false
  /\ parse_payload ("renew_plan" ++ String ":" "3:9.99")
     = parse_payload ("pay_crypto" ++ String ":" "3:9.99").
Proof.
  split; [reflexivity|].
  exact (parse_ignores_mode_tag "renew_plan" "3:9.99" eq_refl).
Defined.


(** A run in which the gateway raises: its exception leaves the handler,
    and the query is not answered. *)
Lemma gateway_exception_leaves_handler :
  pay_crypto_callback_handler Fake fake_surface fake_create_invoice
    fake_helper fake_menu_image_if_exists fake_keyboard fake_format
    fake_format (sample_callback "pay_crypto:3:9.99") sample_settings
    sample_i18n_data (Some {| configured := true |})
    (fake_world_gateway_down (OtherException "gateway timeout"))
  = (Raise (OtherException "gateway timeout"),
     fake_world_gateway_down (OtherException "gateway timeout"),
     [InvoiceRaised sample_invoice_args (OtherException "gateway timeout")]).
Proof. vm_compute. reflexivity. Qed.

(** Digits and blanks outside ASCII: an Arabic-Indic three, fullwidth
    digits, a no-break space before "nan", an em space after a digit; and
    a letter outside ASCII, which [float] refuses. *)
Lemma float_of_string_outside_ascii :
  PyFloat.of_string "٣" = Some (S754_finite false 6755399441055744 (-51))
  /\ PyFloat.of_string "１２"
     = Some (S754_finite false 6755399441055744 (-49))
  /\ PyFloat.of_string
       (String (ascii_of_nat 194) (String (ascii_of_nat 160) "nan"))
     = Some S754_nan
  /\ PyFloat.of_string
       (String "1"
          (String (ascii_of_nat 226)
             (String (ascii_of_nat 128)
                (String (ascii_of_nat 131) EmptyString))))
     = Some (S754_finite false 4503599627370496 (-52))
  /\ PyFloat.of_string "1é" = None
  /\ PyFloat.of_string "²" = None.
Proof. repeat split; vm_compute; reflexivity. Qed.

(** Image paths as [pathlib] writes them. *)
Lemma image_path_examples :
  image_path_of "menu.png" = "/app/bot/static/images/menu.png"
  /\ image_path_of "./menu.png" = "/app/bot/static/images/menu.png"
  /\ image_path_of "icons//back.png/" = "/app/bot/static/images/icons/back.png"
  /\ image_path_of "../logo.png" = "/app/bot/static/images/../logo.png"
  /\ image_path_of "/srv/logo.png" = "/srv/logo.png"
  /\ image_path_of "///srv//logo.png" = "/srv/logo.png".
Proof. repeat split; vm_compute; reflexivity. Qed.
